(** * generate-index.py: the vFlow workflow repository index generator

  A shallow embedding of [src/generate-index.py] and the properties of
  its scan / validate / clean / index pipeline.

  Conventions of the embedding.
  - A Python [str] is a [string] holding its UTF-8 encoding, a lone
    surrogate being kept as the three bytes of its generalized encoding.
    The only patterns the program searches for are ASCII, and the byte
    order coincides with the code point order Python compares by.
  - A value returned by [json.load] is a [json].  A Python [dict] is an
    association list in insertion order (the order [json.dump] writes).
  - A Python exception is a value [exn]; a computation that may raise
    returns a [result].
  - The directory being scanned is a list of named files in the order the
    operating system enumerates them.  A file is kept as what reading it
    yields: a [json.dump] that completes, followed by [json.load], is
    taken to give back the value dumped; a [json.dump] that raises leaves
    a file that cannot be parsed. *)

From Stdlib Require Import String Ascii List ZArith Bool Lia.
From Stdlib Require Import Sorting.Sorted Sorting.Permutation.
From Stdlib Require Import Floats.SpecFloat.
From Stdlib Require Import Structures.OrdersEx Classes.RelationClasses.
Import ListNotations.
Set Warnings "-register-all".
Local Open Scope list_scope.
Local Open Scope string_scope.

(** ** Python strings *)

Module PyStr.

(** [s.endswith(suffix)] *)
Definition endswith (s suffix : string) : bool :=
  let n := String.length s in
  let m := String.length suffix in
  (m <=? n)%nat && (substring (n - m) m s =? suffix).

(** [needle in s] for two strings: [needle] occurs as a substring. *)
Fixpoint contains (needle s : string) : bool :=
  prefix needle s ||
  match s with
  | EmptyString => false
  | String _ s' => contains needle s'
  end.

(** [s.replace(old, new)] for a non-empty [old]: the occurrences of [old]
    are found from the left and do not overlap.  [skip] counts the
    characters of a match that are still to be dropped. *)
Fixpoint replace_from (old new : string) (skip : nat) (s : string) : string :=
  match s with
  | EmptyString => EmptyString
  | String c s' =>
      match skip with
      | S k => replace_from old new k s'
      | O =>
          if prefix old s
          then new ++ replace_from old new (String.length old - 1) s'
          else String c (replace_from old new 0 s')
      end
  end.

(** With an empty [old] Python puts [new] before every character and at
    the end. *)
Fixpoint intersperse (new s : string) : string :=
  match s with
  | EmptyString => new
  | String c s' => new ++ String c (intersperse new s')
  end.

Definition replace (s old new : string) : string :=
  match old with
  | EmptyString => intersperse new s
  | _ => replace_from old new 0 s
  end.

(** [sep.join(parts)] *)
Definition join (sep : string) (parts : list string) : string :=
  String.concat sep parts.

End PyStr.

(** ** JSON values and Python dictionaries *)

Inductive json : Type :=
| JNull
| JBool (b : bool)
| JInt (n : Z)
| JFloat (x : spec_float)
| JStr (s : string)
| JArr (xs : list json)
| JObj (kvs : list (string * json)).

Definition dict := list (string * json).

Module Dict.

(** [d[k]] / [d.get(k)]: the value stored under [k], if any. *)
Fixpoint get (k : string) (d : dict) : option json :=
  match d with
  | [] => None
  | (k', v) :: d' => if k' =? k then Some v else get k d'
  end.

(** [k in d] *)
Definition mem (k : string) (d : dict) : bool :=
  match get k d with Some _ => true | None => false end.

(** [d[k] = v]: an existing key keeps its place, a new key goes last. *)
Fixpoint set (k : string) (v : json) (d : dict) : dict :=
  match d with
  | [] => [(k, v)]
  | (k', v') :: d' =>
      if k' =? k then (k', v) :: d' else (k', v') :: set k v d'
  end.

(** [del d[k]], used to compare catalogs up to one field. *)
Fixpoint remove (k : string) (d : dict) : dict :=
  match d with
  | [] => []
  | (k', v') :: d' =>
      if k' =? k then d' else (k', v') :: remove k d'
  end.

Definition keys (d : dict) : list string := map fst d.

End Dict.

(** ** Exceptions *)

Inductive exn_class : Type :=
| JSONDecodeError
| TypeError
| AttributeError
| KeyError
| OSError
| UnicodeEncodeError
| OtherException.

(** [exn_msg] is [str(e)]. *)
Record exn : Type := mkExn { exn_cls : exn_class; exn_msg : string }.

Inductive result (A : Type) : Type :=
| Ok (a : A)
| Raise (e : exn).
Arguments Ok {A} a.
Arguments Raise {A} e.

Definition bind {A B : Type} (c : result A) (k : A -> result B) : result B :=
match c with
| Ok a => k a
| Raise e => Raise e
end.

Declare Scope py_scope.
Delimit Scope py_scope with py.
Notation "x <- c ;; k" := (bind c (fun x => k))
(at level 61, c at next level, right associativity) : py_scope.
Local Open Scope py_scope.

(** ** Operators of Python on JSON values *)

Module Py.

(** [type(v).__name__] *)
Definition type_name (v : json) : string :=
  match v with
  | JNull => "NoneType"
  | JBool _ => "bool"
  | JInt _ => "int"
  | JFloat _ => "float"
  | JStr _ => "str"
  | JArr _ => "list"
  | JObj _ => "dict"
  end.

(** [v == s] for a string [s]: only an equal string compares equal. *)
Definition eq_str (v : json) (s : string) : bool :=
  match v with
  | JStr s' => s' =? s
  | _ => false
  end.

(** [k in v] for a string [k].  The wording of the messages is that of
    CPython 3.12. *)
Definition contains (k : string) (v : json) : result bool :=
  match v with
  | JObj d => Ok (Dict.mem k d)
  | JArr xs => Ok (existsb (fun x => eq_str x k) xs)
  | JStr s => Ok (PyStr.contains k s)
  | _ => Raise (mkExn TypeError
                  ("argument of type '" ++ type_name v ++ "' is not iterable"))
  end.

(** [v[k]] for a string [k]. *)
Definition getitem (v : json) (k : string) : result json :=
  match v with
  | JObj d =>
      match Dict.get k d with
      | Some x => Ok x
      | None => Raise (mkExn KeyError ("'" ++ k ++ "'"))
      end
  | JArr _ =>
      Raise (mkExn TypeError "list indices must be integers or slices, not str")
  | JStr _ =>
      Raise (mkExn TypeError "string indices must be integers, not 'str'")
  | _ =>
      Raise (mkExn TypeError ("'" ++ type_name v ++ "' object is not subscriptable"))
  end.

(** [v.get(k, default)] *)
Definition get (v : json) (k : string) (default : json) : result json :=
  match v with
  | JObj d =>
      match Dict.get k d with
      | Some x => Ok x
      | None => Ok default
      end
  | _ =>
      Raise (mkExn AttributeError
               ("'" ++ type_name v ++ "' object has no attribute 'get'"))
  end.

(** [[x for x in xs if keep(x)]] where [keep] may raise. *)
Fixpoint filter_comprehension {A : Type} (keep : A -> result bool) (xs : list A)
  : result (list A) :=
  match xs with
  | [] => Ok []
  | x :: xs' =>
      b <- keep x ;;
      rest <- filter_comprehension keep xs' ;;
      Ok (if b then x :: rest else rest)
  end.

End Py.

(** ** The program *)

Section Program.

(** [str(v)] for a JSON value that is not a string, as an f-string
    renders it.  It only appears inside messages. *)
Variable py_repr : json -> string.

(** [dump_error name v] is the exception that
    [json.dump(v, f, ensure_ascii=False, indent=2)] raises, if it raises
    one, with [f] the file [name] opened for writing in UTF-8: a string of
    [v] that holds a lone surrogate cannot be encoded, for one.  The file
    was truncated when it was opened; reading it afterwards raises
    [dump_residue name v]. *)
Variable dump_error : string -> json -> option exn.
Variable dump_residue : string -> json -> exn.

(** [f"{v}"] *)
Definition format (v : json) : string :=
  match v with
  | JStr s => s
  | _ => py_repr v
  end.

(** [f"{m}"] for a message that may be [None]. *)
Definition format_opt (m : option string) : string :=
  match m with
  | Some s => s
  | None => "None"
  end.

Definition normalize_id (filename : string) : string :=
  if PyStr.endswith filename ".json"
  then PyStr.replace filename ".json" ""
  else filename.

Definition required_meta_fields : list string :=
  ["id"; "name"; "description"; "author"; "version"; "vFlowLevel"].

Definition validate_workflow (data : json) (filename : string)
  : result (bool * option string * option json) :=
  has_meta <- Py.contains "_meta" data ;;
  if negb has_meta then
    Ok (false, Some "缺少 '_meta' 字段", None)
  else
    meta <- Py.getitem data "_meta" ;;
    missing_fields <-
      Py.filter_comprehension
        (fun field => b <- Py.contains field meta ;; Ok (negb b))
        required_meta_fields ;;
    match missing_fields with
    | _ :: _ =>
        Ok (false,
            Some ("_meta缺少必需字段: " ++ PyStr.join ", " missing_fields),
            None)
    | [] =>
        let expected_id := normalize_id filename in
        meta_id <- Py.getitem meta "id" ;;
        if negb (Py.eq_str meta_id expected_id) then
          Ok (false,
              Some ("_meta.id 不匹配: 文件名='" ++ expected_id
                    ++ "', _meta.id='" ++ format meta_id ++ "'"),
              None)
        else
          Ok (true, None, Some data)
    end.

(** [data.copy()] exists for a dict and for a list; assigning to a string
    key of a list raises. *)
Definition clean_workflow_for_repo (data : json) : result json :=
  match data with
  | JObj d =>
      let cleaned := d in
      let cleaned := Dict.set "isEnabled" (JBool false) cleaned in
      let cleaned := Dict.set "isFavorite" (JBool false) cleaned in
      let cleaned := Dict.set "wasEnabledBeforePermissionsLost" (JBool false) cleaned in
      Ok (JObj cleaned)
  | JArr _ =>
      Raise (mkExn TypeError "list indices must be integers or slices, not str")
  | _ =>
      Raise (mkExn AttributeError
               ("'" ++ Py.type_name data ++ "' object has no attribute 'copy'"))
  end.

(** *** The directory on disk *)

(** [contents] is what [open(path, 'r')] followed by [json.load] yields:
    the parsed value or the exception raised.  [write_error] is the
    exception [open(path, 'w')] raises, if it raises one; the file is then
    left as it was. *)
Record file : Type := mkFile {
  contents : result json;
  write_error : option exn
}.

(** The entries of the directory in enumeration order. *)
Definition listing := list (string * file).

(** The three lists [scan_directory] fills. *)
Record scan_lists : Type := mkLists {
  items : list json;
  errors : list string;
  skipped_files : list string
}.

Definition no_lists : scan_lists := mkLists [] [] [].

(** [str(dir_path / name)], where [dir_path] is the directory as pathlib
    renders it. *)
Definition child_path (dir_path name : string) : string :=
  if dir_path =? "." then name
  else if PyStr.endswith dir_path "/" then dir_path ++ name
  else dir_path ++ "/" ++ name.

Definition download_base : string :=
  "https://raw.githubusercontent.com/ChaoMixian/vFlow-Repos/main/workflows/".

(** The dict literal bound to [item]; its values are evaluated in order. *)
Definition build_item (meta : json) (dir_path name : string) : result json :=
  v_id <- Py.get meta "id" (JStr (normalize_id name)) ;;
  v_name <- Py.get meta "name" (JStr "未命名") ;;
  v_description <- Py.get meta "description" (JStr "") ;;
  v_author <- Py.get meta "author" (JStr "未知") ;;
  v_version <- Py.get meta "version" (JStr "1.0.0") ;;
  v_level <- Py.get meta "vFlowLevel" (JInt 1) ;;
  v_homepage <- Py.get meta "homepage" (JStr "") ;;
  v_tags <- Py.get meta "tags" (JArr []) ;;
  v_updated <- Py.get meta "updated_at" (JStr "") ;;
  Ok (JObj [("id", v_id);
            ("name", v_name);
            ("description", v_description);
            ("author", v_author);
            ("version", v_version);
            ("vFlowLevel", v_level);
            ("homepage", v_homepage);
            ("tags", v_tags);
            ("updated_at", v_updated);
            ("filename", JStr name);
            ("download_url", JStr (download_base ++ name));
            ("local_path", JStr (child_path dir_path name))]).

(** [errors.append(f"❌ {name}: {msg}")] and [skipped_files.append(name)] *)
Definition record_error (acc : scan_lists) (name msg : string) : scan_lists :=
  mkLists (items acc)
          (List.app (errors acc) ["❌ " ++ name ++ ": " ++ msg])
          (List.app (skipped_files acc) [name]).

(** [items.append(item)] *)
Definition append_item (acc : scan_lists) (item : json) : scan_lists :=
  mkLists (List.app (items acc) [item]) (errors acc) (skipped_files acc).

(** The body of the [try] statement for one file: the file and the lists
    as it leaves them, and the exception it ends with, if any.  What was
    appended before an exception stays appended, and a [json.dump] that
    raises leaves the file it was writing unreadable. *)
Definition try_body (dir_path name : string) (f : file) (acc : scan_lists)
  : file * scan_lists * option exn :=
  match contents f with
  | Raise e => (f, acc, Some e)
  | Ok data =>
      match validate_workflow data name with
      | Raise e => (f, acc, Some e)
      | Ok (is_valid, error_msg, _) =>
          if negb is_valid then
            (f, record_error acc name (format_opt error_msg), None)
          else
            match (meta <- Py.get data "_meta" (JObj []) ;;
                   cleaned_workflow <- clean_workflow_for_repo data ;;
                   item <- build_item meta dir_path name ;;
                   Ok (cleaned_workflow, item)) with
            | Raise e => (f, acc, Some e)
            | Ok (cleaned_workflow, item) =>
                let acc := append_item acc item in
                match write_error f with
                | Some e => (f, acc, Some e)
                | None =>
                    match dump_error name cleaned_workflow with
                    | Some e =>
                        (mkFile (Raise (dump_residue name cleaned_workflow)) None,
                         acc, Some e)
                    | None => (mkFile (Ok cleaned_workflow) None, acc, None)
                    end
                end
            end
      end
  end.

(** The [try] statement with its two handlers. *)
Definition scan_file (dir_path name : string) (f : file) (acc : scan_lists)
  : file * scan_lists :=
  match try_body dir_path name f acc with
  | (f', acc', None) => (f', acc')
  | (f', acc', Some e) =>
      match exn_cls e with
      | JSONDecodeError =>
          (f', record_error acc' name ("JSON解析错误 - " ++ exn_msg e))
      | _ =>
          (f', record_error acc' name (exn_msg e))
      end
  end.

(** One turn of the loop over [dir_path.glob('*.json')]: entries whose
    name does not match are not visited, [index.json] is passed over. *)
Definition visit (dir_path name : string) (f : file) (acc : scan_lists)
  : file * scan_lists :=
  if negb (PyStr.endswith name ".json") then (f, acc)
  else if name =? "index.json" then (f, acc)
  else scan_file dir_path name f acc.

Fixpoint scan_entries (dir_path : string) (entries : listing) (acc : scan_lists)
  : listing * scan_lists :=
  match entries with
  | [] => ([], acc)
  | (name, f) :: rest =>
      let (f', acc') := visit dir_path name f acc in
      let (rest', acc'') := scan_entries dir_path rest acc' in
      ((name, f') :: rest', acc'')
  end.

(** [fs] is the directory at [dir_path], [None] when the path does not
    exist.  The result is the directory afterwards and the three lists. *)
Definition scan_directory (dir_path : string) (fs : option listing)
  : option listing * scan_lists :=
  match fs with
  | None => (None, no_lists)
  | Some entries =>
      let (entries', acc) := scan_entries dir_path entries no_lists in
      (Some entries', acc)
  end.

(** *** Sorting the entries *)

(** [x['id']] as a sort key.  [list.sort] compares keys with [<]; the
    model covers string keys, which are the keys of the entries
    [scan_directory] builds, and reports a key of another type as the
    TypeError its comparison with a string raises. *)
Definition sort_key (x : json) : result string :=
  k <- Py.getitem x "id" ;;
  match k with
  | JStr s => Ok s
  | _ => Raise (mkExn TypeError
                  ("'<' not supported between instances of '"
                   ++ Py.type_name k ++ "' and 'str'"))
  end.

Fixpoint decorate (xs : list json) : result (list (string * json)) :=
  match xs with
  | [] => Ok []
  | x :: xs' =>
      k <- sort_key x ;;
      rest <- decorate xs' ;;
      Ok ((k, x) :: rest)
  end.

Fixpoint insert_by_key (x : string * json) (l : list (string * json))
  : list (string * json) :=
  match l with
  | [] => [x]
  | y :: l' =>
      if fst x <=? fst y then x :: y :: l' else y :: insert_by_key x l'
  end.

(** [list.sort] is a stable sort; on keys that are totally ordered its
    result is the one stable insertion gives. *)
Definition stable_sort (l : list (string * json)) : list (string * json) :=
  fold_right insert_by_key [] l.

(** [items.sort(key=lambda x: x['id'])] *)
Definition sort_items (xs : list json) : result (list json) :=
  keyed <- decorate xs ;;
  Ok (map snd (stable_sort keyed)).

(** *** Writing the catalog *)

(** Opening the entry called [name] for writing and leaving [c] as what
    reading it yields: an existing entry is overwritten where it stands, a
    new one is added; [Raise] is the exception of [open]. *)
Fixpoint put_file (entries : listing) (name : string) (c : result json)
  : result listing :=
  match entries with
  | [] => Ok [(name, mkFile c None)]
  | (n, f) :: rest =>
      if n =? name then
        match write_error f with
        | Some e => Raise e
        | None => Ok ((n, mkFile c None) :: rest)
        end
      else
        rest' <- put_file rest name c ;;
        Ok ((n, f) :: rest')
  end.

(** Writing [v] to the entry called [name], the dump completing. *)
Definition write_file (entries : listing) (name : string) (v : json)
  : result listing :=
  put_file entries name (Ok v).

(** What reading the file [name] yields once [json.dump(v, f)] has run on
    it: [v], or an exception when the dump raised. *)
Definition dumped (name : string) (v : json) : result json :=
  match dump_error name v with
  | Some _ => Raise (dump_residue name v)
  | None => Ok v
  end.

(** [open(dir_path / name, 'w')] and [json.dump(v, f)]: the directory
    afterwards and the exception raised, if any.  A file cannot be
    created inside a directory that does not exist. *)
Definition dump_to (dir_path : string) (fs : option listing)
           (name : string) (v : json) : option listing * option exn :=
  match fs with
  | None =>
      (None,
       Some (mkExn OSError
               ("[Errno 2] No such file or directory: '"
                ++ child_path dir_path name ++ "'")))
  | Some entries =>
      match put_file entries name (dumped name v) with
      | Raise e => (Some entries, Some e)
      | Ok entries' => (Some entries', dump_error name v)
      end
  end.

(** How a call of [generate_index] ends. *)
Inductive outcome : Type :=
| Returned
| SysExit (code : Z)
| Uncaught (e : exn).

(** The exit status of the process. *)
Definition exit_status (o : outcome) : Z :=
  match o with
  | Returned => 0
  | SysExit code => code
  | Uncaught _ => 1
  end.

(** [now] is [datetime.now().isoformat()], [directory] the scanned path as
    pathlib renders it, [fs] the directory found there.  Console output is
    left out. *)
Definition generate_index (directory output_file now : string)
           (fs : option listing) : option listing * outcome :=
  let (fs1, acc) := scan_directory directory fs in
  match sort_items (items acc) with
  | Raise e => (fs1, Uncaught e)
  | Ok sorted =>
      let index :=
        JObj [("version", JStr "1.0");
              ("last_updated", JStr now);
              ("total_count", JInt (Z.of_nat (List.length sorted)));
              ("workflows", JArr sorted)] in
      match dump_to directory fs1 output_file index with
      | (fs2, Some e) => (fs2, Uncaught e)
      | (fs2, None) =>
          match errors acc with
          | _ :: _ => (fs2, SysExit 1)
          | [] => (fs2, Returned)
          end
      end
  end.

(** [argv] is [sys.argv]. *)
Definition main (argv : list string) (now : string) (fs : option listing)
  : option listing * outcome :=
  let workflows_dir :=
    match argv with
    | _ :: d :: _ => d
    | _ => "workflows"
    end in
  generate_index workflows_dir "index.json" now fs.

(** ** The vocabulary of the properties *)

(** The fields of [required_meta_fields] that an object [m] lacks, in the
    order of that list. *)
Definition missing_in (m : dict) : list string :=
  filter (fun field => negb (Dict.mem field m)) required_meta_fields.

(** The part of [validate_workflow] that follows the binding of [meta]. *)
Definition validate_meta (data meta : json) (filename : string)
  : result (bool * option string * option json) :=
  missing_fields <-
    Py.filter_comprehension
      (fun field => b <- Py.contains field meta ;; Ok (negb b))
      required_meta_fields ;;
  match missing_fields with
  | _ :: _ =>
      Ok (false,
          Some ("_meta缺少必需字段: " ++ PyStr.join ", " missing_fields),
          None)
  | [] =>
      meta_id <- Py.getitem meta "id" ;;
      if negb (Py.eq_str meta_id (normalize_id filename)) then
        Ok (false,
            Some ("_meta.id 不匹配: 文件名='" ++ normalize_id filename
                  ++ "', _meta.id='" ++ format meta_id ++ "'"),
            None)
      else Ok (true, None, Some data)
  end.

(** The dictionary [clean_workflow_for_repo] returns for the object [d]. *)
Definition cleaned_dict (d : dict) : dict :=
  Dict.set "wasEnabledBeforePermissionsLost" (JBool false)
    (Dict.set "isFavorite" (JBool false)
       (Dict.set "isEnabled" (JBool false) d)).

Definition runtime_flags : list string :=
  ["isEnabled"; "isFavorite"; "wasEnabledBeforePermissionsLost"].

Definition get_or (k : string) (d : dict) (default : json) : json :=
  match Dict.get k d with
  | Some x => x
  | None => default
  end.

(** The catalog entry built from the [_meta] object [m] of the file [name]. *)
Definition item_of (m : dict) (dir_path name : string) : json :=
  JObj [("id", get_or "id" m (JStr (normalize_id name)));
        ("name", get_or "name" m (JStr "未命名"));
        ("description", get_or "description" m (JStr ""));
        ("author", get_or "author" m (JStr "未知"));
        ("version", get_or "version" m (JStr "1.0.0"));
        ("vFlowLevel", get_or "vFlowLevel" m (JInt 1));
        ("homepage", get_or "homepage" m (JStr ""));
        ("tags", get_or "tags" m (JArr []));
        ("updated_at", get_or "updated_at" m (JStr ""));
        ("filename", JStr name);
        ("download_url", JStr (download_base ++ name));
        ("local_path", JStr (child_path dir_path name))].

(** [str(e)] as the handler that catches [e] reports it. *)
Definition handler_message (e : exn) : string :=
  match exn_cls e with
  | JSONDecodeError => "JSON解析错误 - " ++ exn_msg e
  | _ => exn_msg e
  end.

(** [f] holds a document that [validate_workflow] accepts under [name]. *)
Definition validates (name : string) (f : file) : Prop :=
  exists data msg out,
    contents f = Ok data /\ validate_workflow data name = Ok (true, msg, out).

(** The text reported for a document that is not accepted: the message
    of the validator, or that of the exception it raised. *)
Definition rejection_text (data : json) (name : string) : string :=
  match validate_workflow data name with
  | Ok (_, error_msg, _) => format_opt error_msg
  | Raise e => handler_message e
  end.

Definition lists_app (a b : scan_lists) : scan_lists :=
  mkLists (List.app (items a) (items b))
          (List.app (errors a) (errors b))
          (List.app (skipped_files a) (skipped_files b)).

(** The file a turn of the loop leaves, and what it adds to the lists. *)
Definition file_after (dir_path name : string) (f : file) : file :=
  fst (visit dir_path name f no_lists).

Definition file_delta (dir_path name : string) (f : file) : scan_lists :=
  snd (visit dir_path name f no_lists).

(** The names the loop body runs for. *)
Definition scanned (name : string) : bool :=
  PyStr.endswith name ".json" && negb (name =? "index.json").

Definition after (dir_path : string) (entries : listing) : listing :=
  map (fun e => (fst e, file_after dir_path (fst e) (snd e))) entries.

Fixpoint scan_delta (dir_path : string) (entries : listing) : scan_lists :=
  match entries with
  | [] => no_lists
  | (name, f) :: rest =>
      lists_app (file_delta dir_path name f) (scan_delta dir_path rest)
  end.

(** The write-back of [f] is cut short: its document is accepted and the
    file opens for writing, but dumping the cleaned document raises. *)
Definition cut_short (name : string) (f : file) : bool :=
  match contents f with
  | Ok data =>
      match validate_workflow data name with
      | Ok (true, _, _) =>
          match write_error f with
          | Some _ => false
          | None =>
              match clean_workflow_for_repo data with
              | Ok cleaned =>
                  match dump_error name cleaned with
                  | Some _ => true
                  | None => false
                  end
              | Raise _ => false
              end
          end
      | _ => false
      end
  | Raise _ => false
  end.

(** The five ways a turn of the loop can go. *)
Inductive file_case (dir_path name : string) (f : file) : Prop :=
| case_not_scanned :
    scanned name = false ->
    file_after dir_path name f = f ->
    file_delta dir_path name f = no_lists ->
    file_case dir_path name f
| case_failed (text : string) :
    scanned name = true ->
    ~ validates name f ->
    file_after dir_path name f = f ->
    file_delta dir_path name f = record_error no_lists name text ->
    file_case dir_path name f
| case_written (d m : dict) :
    scanned name = true ->
    validates name f ->
    contents f = Ok (JObj d) ->
    Dict.get "_meta" d = Some (JObj m) ->
    Dict.get "id" m = Some (JStr (normalize_id name)) ->
    write_error f = None ->
    dump_error name (JObj (cleaned_dict d)) = None ->
    file_after dir_path name f = mkFile (Ok (JObj (cleaned_dict d))) None ->
    file_delta dir_path name f = append_item no_lists (item_of m dir_path name) ->
    file_case dir_path name f
| case_unwritten (d m : dict) (e : exn) :
    scanned name = true ->
    validates name f ->
    contents f = Ok (JObj d) ->
    Dict.get "_meta" d = Some (JObj m) ->
    Dict.get "id" m = Some (JStr (normalize_id name)) ->
    write_error f = Some e ->
    file_after dir_path name f = f ->
    file_delta dir_path name f =
      record_error (append_item no_lists (item_of m dir_path name)) name
                   (handler_message e) ->
    file_case dir_path name f
| case_cut_short (d m : dict) (e : exn) :
    scanned name = true ->
    validates name f ->
    contents f = Ok (JObj d) ->
    Dict.get "_meta" d = Some (JObj m) ->
    Dict.get "id" m = Some (JStr (normalize_id name)) ->
    write_error f = None ->
    dump_error name (JObj (cleaned_dict d)) = Some e ->
    file_after dir_path name f
    = mkFile (Raise (dump_residue name (JObj (cleaned_dict d)))) None ->
    file_delta dir_path name f =
      record_error (append_item no_lists (item_of m dir_path name)) name
                   (handler_message e) ->
    file_case dir_path name f.

(** An error line names the file it is about. *)
Definition names_file (error name : string) : Prop :=
  exists text, error = "❌ " ++ name ++ ": " ++ text.

(** [x] is the entry built for a scanned file of [entries] whose document
    is accepted. *)
Definition item_from (dir_path : string) (entries : listing) (x : json) : Prop :=
  exists name f d m,
    In (name, f) entries /\
    scanned name = true /\
    validates name f /\
    contents f = Ok (JObj d) /\
    Dict.get "_meta" d = Some (JObj m) /\
    Dict.get "id" m = Some (JStr (normalize_id name)) /\
    x = item_of m dir_path name.

(** The [filename] field of an entry. *)
Definition entry_filename (x : json) : option json :=
  match x with
  | JObj d => Dict.get "filename" d
  | _ => None
  end.

Definition key_le (p q : string * json) : Prop := (fst p <=? fst q) = true.

(** [x] is placed no later than [y]: their keys are strings in order. *)
Definition id_le (x y : json) : Prop :=
  exists a b, sort_key x = Ok a /\ sort_key y = Ok b /\ (a <=? b) = true.

(** [x['id'] == k] *)
Definition has_id (k : string) (x : json) : bool :=
  match sort_key x with
  | Ok s => s =? k
  | Raise _ => false
  end.

Definition keyed_right (p : string * json) : Prop := sort_key (snd p) = Ok (fst p).

(** The entry called [name], if there is one, can be opened for writing. *)
Fixpoint can_write (entries : listing) (name : string) : bool :=
  match entries with
  | [] => true
  | (n, f) :: rest =>
      if n =? name then
        match write_error f with
        | None => true
        | Some _ => false
        end
      else can_write rest name
  end.

Definition not_named (name : string) (e : string * file) : bool :=
  negb (fst e =? name).

(** The catalog document for the sorted entries. *)
Definition index_doc (now : string) (sorted : list json) : json :=
  JObj [("version", JStr "1.0");
        ("last_updated", JStr now);
        ("total_count", JInt (Z.of_nat (List.length sorted)));
        ("workflows", JArr sorted)].

(** The files of the directory other than the catalog. *)
Definition workflow_files (fs : option listing) : option listing :=
  option_map (filter (not_named "index.json")) fs.

(** The catalog file of the directory. *)
Definition catalog_file (fs : option listing) : option file :=
  match fs with
  | Some entries =>
      option_map snd (find (fun e => fst e =? "index.json") entries)
  | None => None
  end.

(** A file with the [last_updated] field of its document removed. *)
Definition without_timestamp (f : file) : file :=
  mkFile
    match contents f with
    | Ok (JObj d) => Ok (JObj (Dict.remove "last_updated" d))
    | c => c
    end
    (write_error f).

(** The sequence of entries of the catalog file. *)
Definition catalog_workflows (fs : option listing) : option (list json) :=
  match catalog_file fs with
  | Some f =>
      match contents f with
      | Ok (JObj d) =>
          match Dict.get "workflows" d with
          | Some (JArr ws) => Some ws
          | _ => None
          end
      | _ => None
      end
  | None => None
  end.

(** The file produces an error: its document is not accepted, or the file
    cannot be opened to write the cleaned document back, or dumping the
    cleaned document raises. *)
Definition in_error (name : string) (f : file) : Prop :=
  ~ validates name f \/ write_error f <> None \/ cut_short name f = true.

(** The run ended by returning or through [sys.exit], not with an
    exception that nothing caught. *)
Definition completed (o : outcome) : bool :=
  match o with
  | Uncaught _ => false
  | _ => true
  end.

(** No write-back of the scan is cut short. *)
Definition none_cut_short (entries : listing) : Prop :=
  forall name f,
    In (name, f) entries -> scanned name = true -> cut_short name f = false.

(** The filename with its [.json] extension removed, as the specification
    words it, to compare [normalize_id] with. *)
Definition filename_stem (filename : string) : string :=
  if PyStr.endswith filename ".json"
  then substring 0 (String.length filename - 5) filename
  else filename.

(** The [_meta] with the six required fields and the identifier [id]. *)
Definition full_meta (id : string) : json :=
  JObj [("id", JStr id); ("name", JStr "Demo"); ("description", JStr "");
        ("author", JStr "someone"); ("version", JStr "1.0.0");
        ("vFlowLevel", JInt 1)].

(** The entries of the catalog a run writes. *)
Definition written_entries (directory now : string) (entries : listing)
  : option (list json) :=
  catalog_workflows (fst (generate_index directory "index.json" now (Some entries))).

(** The verdict of [validate_workflow] and its message, or the exception
    it raised. *)
Definition verdict (r : result (bool * option string * option json))
  : result (bool * option string) :=
  match r with
  | Ok (is_valid, error_msg, _) => Ok (is_valid, error_msg)
  | Raise e => Raise e
  end.

(** The values [k in v] raises for: [None], booleans and numbers. *)
Definition scalar (v : json) : bool :=
  match v with
  | JNull | JBool _ | JInt _ | JFloat _ => true
  | _ => false
  end.

(** The [filename] fields of a list of entries. *)
Definition filenames (xs : list json) : list (option json) :=
  map entry_filename xs.

(** The document of [f] is read and reported valid under [name]. *)
Definition accepts (name : string) (f : file) : bool :=
  match contents f with
  | Ok data =>
      match validate_workflow data name with
      | Ok (true, _, _) => true
      | _ => false
      end
  | Raise _ => false
  end.

(** ** Sample data *)

(** A rendering of values for the messages of the samples. *)
Definition sample_repr (v : json) : string := "<" ++ Py.type_name v ++ ">".

(** A workflow document with the identifier [id], enabled on the device
    it comes from. *)
Definition sample_doc (id : string) : dict :=
  [("_meta", full_meta id); ("isEnabled", JBool true); ("steps", JArr [])].

Definition sample_file (id : string) : file :=
  mkFile (Ok (JObj (sample_doc id))) None.

(** A document without [_meta]. *)
Definition sample_bad_file : file :=
  mkFile (Ok (JObj [("name", JStr "no meta")])) None.

Definition sample_now : string := "2024-05-01T12:00:00".

(** A workflow file that validates but is read-only. *)
Definition sample_read_only_file (id : string) : file :=
  mkFile (Ok (JObj (sample_doc id)))
         (Some (mkExn OSError "[Errno 13] Permission denied")).

(** A file that is not JSON. *)
Definition sample_broken_file : file :=
  mkFile (Raise (mkExn JSONDecodeError "Expecting value: line 1 column 1 (char 0)"))
         None.

(** A [_meta] that lacks four of the required fields. *)
Definition sample_partial_doc : dict :=
  [("_meta", JObj [("id", JStr "x"); ("author", JStr "me")])].

(** A directory with an accepted file, a rejected one, a broken one, a file
    that is not a workflow and an old catalog. *)
Definition sample_listing : listing :=
  [("good.json", sample_file "good");
   ("bad.json", sample_bad_file);
   ("broken.json", sample_broken_file);
   ("notes.txt", mkFile (Raise (mkExn OtherException "not JSON")) None);
   ("index.json", mkFile (Ok JNull) None)].

(** The lone surrogate U+D800, which [json.load] returns for the JSON
    text ["\ud800"], in its generalized encoding. *)
Definition lone_surrogate : string :=
  String (ascii_of_nat 237) (String (ascii_of_nat 160)
    (String (ascii_of_nat 128) EmptyString)).

(** The string holds a surrogate: the byte ED followed by a byte from A0
    to BF, which no encoding of a character has. *)
Fixpoint has_surrogate (s : string) : bool :=
  match s with
  | String c rest =>
      match rest with
      | String c' _ =>
          (Nat.eqb (nat_of_ascii c) 237 && Nat.leb 160 (nat_of_ascii c')
           && Nat.leb (nat_of_ascii c') 191)
          || has_surrogate rest
      | EmptyString => false
      end
  | EmptyString => false
  end.

(** A key or a string of the value holds a surrogate, which the UTF-8
    codec of the file refuses to encode. *)
Fixpoint unencodable (v : json) : bool :=
  match v with
  | JStr s => has_surrogate s
  | JArr xs => existsb unencodable xs
  | JObj kvs =>
      existsb (fun kv : string * json =>
                 let (k, x) := kv in has_surrogate k || unencodable x) kvs
  | _ => false
  end.

(** The dump for the samples: it raises on a value that cannot be encoded,
    with the message Python gives where the string is the surrogate
    U+D800 alone. *)
Definition sample_dump_error (name : string) (v : json) : option exn :=
  if unencodable v
  then Some (mkExn UnicodeEncodeError
               "'utf-8' codec can't encode character '\ud800' in position 1: surrogates not allowed")
  else None.

(** A valid workflow document, its flags false already, with a note that
    is the lone surrogate. *)
Definition sample_surrogate_doc (id : string) : dict :=
  [("_meta", full_meta id); ("isEnabled", JBool false); ("isFavorite", JBool false);
   ("wasEnabledBeforePermissionsLost", JBool false); ("note", JStr lone_surrogate)].

Definition sample_surrogate_file (id : string) : file :=
  mkFile (Ok (JObj (sample_surrogate_doc id))) None.

(** What reading the file of [sample_surrogate_doc "s"] raises once the
    dump was cut short: the text ends after the key [note]. *)
Definition sample_dump_residue (name : string) (v : json) : exn :=
  mkExn JSONDecodeError "Expecting value: line 13 column 11 (char 246)".


Definition sample_later : string := "2024-05-02T12:00:00".

(** ** Facts about dictionaries and strings *)

Lemma dict_get_set_same (k : string) (v : json) (d : dict) :
  Dict.get k (Dict.set k v d) = Some v.
Proof.
  induction d as [|[k' v'] d IH]; simpl.
  - now rewrite String.eqb_refl.
  - destruct (k' =? k) eqn:E; simpl; rewrite E; auto.
Qed.

Lemma dict_get_set_other (k k' : string) (v : json) (d : dict) :
  k' <> k -> Dict.get k' (Dict.set k v d) = Dict.get k' d.
Proof.
  intros Hne. induction d as [|[k0 v0] d IH]; simpl.
  - apply String.eqb_neq in Hne. rewrite String.eqb_sym. now rewrite Hne.
  - destruct (k0 =? k) eqn:E; simpl.
    + apply String.eqb_eq in E. subst k0.
      assert (H : (k =? k') = false) by (apply String.eqb_neq; congruence).
      now rewrite H.
    + destruct (k0 =? k'); auto.
Qed.

(** Storing the value a key already has changes nothing. *)
Lemma dict_set_same_value (k : string) (v : json) (d : dict) :
  Dict.get k d = Some v -> Dict.set k v d = d.
Proof.
  induction d as [|[k' v'] d IH]; simpl; intros H.
  - discriminate.
  - destruct (k' =? k) eqn:E.
    + congruence.
    + now rewrite IH.
Qed.

(** Assignment keeps the keys that were there, in their order. *)
Lemma dict_set_keys (k : string) (v : json) (d : dict) :
  Dict.keys (Dict.set k v d) =
  if Dict.mem k d then Dict.keys d else List.app (Dict.keys d) [k].
Proof.
  unfold Dict.mem. induction d as [|[k' v'] d IH]; simpl.
  - reflexivity.
  - destruct (k' =? k) eqn:E; simpl.
    + reflexivity.
    + rewrite IH. now destruct (Dict.get k d).
Qed.

Lemma filter_comprehension_total {A : Type} (keep : A -> bool) (xs : list A) :
  Py.filter_comprehension (fun x => Ok (keep x)) xs = Ok (filter keep xs).
Proof.
  induction xs as [|x xs IH]; simpl.
  - reflexivity.
  - rewrite IH. simpl. now destruct (keep x).
Qed.

Lemma filter_nil_iff {A : Type} (keep : A -> bool) (xs : list A) :
  filter keep xs = [] <-> forall x, In x xs -> keep x = false.
Proof.
  induction xs as [|x xs IH]; simpl.
  - split; [intros _ y []|reflexivity].
  - destruct (keep x) eqn:E.
    + split; [discriminate|]. intros H. specialize (H x (or_introl eq_refl)).
      congruence.
    + rewrite IH. split.
      * intros H y [<-|Hy]; auto.
      * intros H y Hy. apply H. now right.
Qed.

(** ** The validator *)

Lemma missing_fields_of_object (m : dict) :
  Py.filter_comprehension
    (fun field => b <- Py.contains field (JObj m) ;; Ok (negb b))
    required_meta_fields
  = Ok (missing_in m).
Proof.
  unfold missing_in. simpl Py.contains.
  exact (filter_comprehension_total (fun field => negb (Dict.mem field m)) _).
Qed.

Lemma validate_workflow_with_meta (d : dict) (meta : json) (filename : string) :
  Dict.get "_meta" d = Some meta ->
  validate_workflow (JObj d) filename = validate_meta (JObj d) meta filename.
Proof.
  intros Hm. unfold validate_workflow, validate_meta.
  cbn [Py.contains bind]. unfold Dict.mem at 1. rewrite Hm.
  cbn [negb Py.getitem bind]. rewrite Hm. reflexivity.
Qed.

Lemma validate_workflow_no_meta (d : dict) (filename : string) :
  Dict.get "_meta" d = None ->
  validate_workflow (JObj d) filename = Ok (false, Some "缺少 '_meta' 字段", None).
Proof.
  intros Hm. unfold validate_workflow.
  cbn [Py.contains bind]. unfold Dict.mem at 1. rewrite Hm. reflexivity.
Qed.

(** What [validate_workflow] computes for a document that is an object
    whose [_meta] is an object. *)
Lemma validate_workflow_object (d m : dict) (filename : string) :
  Dict.get "_meta" d = Some (JObj m) ->
  validate_workflow (JObj d) filename =
  match missing_in m with
  | _ :: _ =>
      Ok (false,
          Some ("_meta缺少必需字段: " ++ PyStr.join ", " (missing_in m)),
          None)
  | [] =>
      meta_id <- Py.getitem (JObj m) "id" ;;
      if negb (Py.eq_str meta_id (normalize_id filename)) then
        Ok (false,
            Some ("_meta.id 不匹配: 文件名='" ++ normalize_id filename
                  ++ "', _meta.id='" ++ format meta_id ++ "'"),
            None)
      else Ok (true, None, Some (JObj d))
  end.
Proof.
  intros Hm. rewrite (validate_workflow_with_meta d (JObj m) filename Hm).
  unfold validate_meta. rewrite missing_fields_of_object. reflexivity.
Qed.

(** A [_meta] that is not an object never validates: the membership test
    raises, a field is missing, or [meta['id']] raises. *)
Lemma validate_meta_not_object (data meta : json) (filename : string)
      (msg : option string) (out : option json) :
  validate_meta data meta filename = Ok (true, msg, out) ->
  exists m, meta = JObj m.
Proof.
  unfold validate_meta. intros H.
  destruct meta as [| b | n | x | s | xs | m]; try discriminate H.
  - cbn [Py.contains bind] in H.
    rewrite (filter_comprehension_total
               (fun field => negb (PyStr.contains field s))) in H.
    cbn [bind Py.getitem] in H.
    destruct (filter _ required_meta_fields); discriminate H.
  - cbn [Py.contains bind] in H.
    rewrite (filter_comprehension_total
               (fun field => negb (existsb (fun x => Py.eq_str x field) xs))) in H.
    cbn [bind Py.getitem] in H.
    destruct (filter _ required_meta_fields); discriminate H.
  - now exists m.
Qed.

(** The verdict depends on the document only through its [_meta]. *)
Lemma validate_meta_data (data data' meta : json) (filename : string) :
  validate_meta data meta filename =
  r <- validate_meta data' meta filename ;;
  match r with
  | (is_valid, error_msg, Some _) => Ok (is_valid, error_msg, Some data)
  | (is_valid, error_msg, None) => Ok (is_valid, error_msg, None)
  end.
Proof.
  unfold validate_meta.
  match goal with
  | |- context [Py.filter_comprehension ?f ?l] =>
      destruct (Py.filter_comprehension f l) as [[|y l']|e]
  end; cbn [bind]; try reflexivity.
  destruct (Py.getitem meta "id") as [meta_id|e]; cbn [bind]; try reflexivity.
  destruct (Py.eq_str meta_id (normalize_id filename)); reflexivity.
Qed.

(** A document is reported valid exactly when it is an object whose
    [_meta] is an object that has the six fields and whose [id] is the
    string [normalize_id filename]. *)
Lemma validate_workflow_valid_iff (data : json) (filename : string) :
  (exists msg out, validate_workflow data filename = Ok (true, msg, out)) <->
  (exists d m,
      data = JObj d /\
      Dict.get "_meta" d = Some (JObj m) /\
      (forall field, In field required_meta_fields -> Dict.mem field m = true) /\
      Dict.get "id" m = Some (JStr (normalize_id filename))).
Proof.
  split.
  - intros (msg & out & H).
    destruct data as [| b | n | x | s | xs | d]; try discriminate H.
    + unfold validate_workflow in H. cbn [Py.contains bind] in H.
      destruct (PyStr.contains "_meta" s); discriminate H.
    + unfold validate_workflow in H. cbn [Py.contains bind] in H.
      destruct (existsb _ xs); discriminate H.
    + destruct (Dict.get "_meta" d) as [meta|] eqn:Hm.
      2:{ rewrite validate_workflow_no_meta in H by assumption. discriminate. }
      rewrite (validate_workflow_with_meta d meta filename Hm) in H.
      destruct (validate_meta_not_object _ _ _ _ _ H) as [m ->].
      rewrite <- (validate_workflow_with_meta d (JObj m) filename Hm) in H.
      rewrite (validate_workflow_object d m filename Hm) in H.
      destruct (missing_in m) as [|y l] eqn:Hmiss; [|discriminate].
      exists d, m. split; [reflexivity|]. split; [exact Hm|].
      assert (Hall : forall field,
                 In field required_meta_fields -> Dict.mem field m = true).
      { intros field Hin. unfold missing_in in Hmiss.
        apply (proj1 (filter_nil_iff _ _)) with (x := field) in Hmiss; auto.
        now apply negb_false_iff in Hmiss. }
      split; [exact Hall|].
      cbn [Py.getitem] in H.
      destruct (Dict.get "id" m) as [v|] eqn:Hid; cbn [bind] in H;
        [|discriminate].
      destruct v as [| b | n | x | s | xs | kvs]; try discriminate H.
      cbn [Py.eq_str] in H.
      destruct (s =? normalize_id filename) eqn:E; [|discriminate H].
      apply String.eqb_eq in E. now subst s.
  - intros (d & m & -> & Hm & Hall & Hid).
    exists None, (Some (JObj d)).
    rewrite (validate_workflow_object d m filename Hm).
    assert (Hmiss : missing_in m = []).
    { apply filter_nil_iff. intros x Hx. now rewrite (Hall x Hx). }
    rewrite Hmiss. cbn [Py.getitem]. rewrite Hid. cbn [bind Py.eq_str].
    now rewrite String.eqb_refl.
Qed.

(** A valid verdict carries no message and hands back the document. *)
Lemma validate_workflow_valid_result (data : json) (filename : string)
      (msg : option string) (out : option json) :
  validate_workflow data filename = Ok (true, msg, out) ->
  msg = None /\ out = Some data.
Proof.
  intros H.
  destruct (proj1 (validate_workflow_valid_iff data filename))
    as (d & m & -> & Hm & Hall & Hid); [now exists msg, out|].
  rewrite (validate_workflow_object d m filename Hm) in H.
  assert (Hmiss : missing_in m = []).
  { apply filter_nil_iff. intros x Hx. now rewrite (Hall x Hx). }
  rewrite Hmiss in H. cbn [Py.getitem] in H. rewrite Hid in H.
  cbn [bind Py.eq_str] in H. rewrite String.eqb_refl in H.
  cbn [negb] in H. now inversion H.
Qed.

(** ** The normalizer *)

Lemma clean_workflow_for_repo_object (d : dict) :
  clean_workflow_for_repo (JObj d) = Ok (JObj (cleaned_dict d)).
Proof. reflexivity. Qed.

Lemma cleaned_dict_flag (d : dict) (k : string) :
  In k runtime_flags -> Dict.get k (cleaned_dict d) = Some (JBool false).
Proof.
  unfold cleaned_dict, runtime_flags.
  intros [<-|[<-|[<-|[]]]].
  - rewrite !dict_get_set_other by discriminate. apply dict_get_set_same.
  - rewrite dict_get_set_other by discriminate. apply dict_get_set_same.
  - apply dict_get_set_same.
Qed.

Lemma cleaned_dict_other (d : dict) (k : string) :
  ~ In k runtime_flags -> Dict.get k (cleaned_dict d) = Dict.get k d.
Proof.
  unfold cleaned_dict, runtime_flags. intros Hk.
  rewrite !dict_get_set_other; auto; intros ->; apply Hk; simpl; auto.
Qed.

Lemma cleaned_dict_idempotent (d : dict) :
  cleaned_dict (cleaned_dict d) = cleaned_dict d.
Proof.
  unfold cleaned_dict at 1.
  rewrite (dict_set_same_value "isEnabled")
    by (apply cleaned_dict_flag; simpl; auto).
  rewrite (dict_set_same_value "isFavorite")
    by (apply cleaned_dict_flag; simpl; auto).
  apply dict_set_same_value. apply cleaned_dict_flag; simpl; auto.
Qed.

Lemma cleaned_dict_meta (d : dict) :
  Dict.get "_meta" (cleaned_dict d) = Dict.get "_meta" d.
Proof.
  apply cleaned_dict_other. unfold runtime_flags.
  intros [H|[H|[H|[]]]]; discriminate H.
Qed.

Lemma clean_workflow_for_repo_twice (data : json) :
  (cleaned <- clean_workflow_for_repo data ;; clean_workflow_for_repo cleaned)
  = clean_workflow_for_repo data.
Proof.
  destruct data; try reflexivity.
  rewrite clean_workflow_for_repo_object. cbn [bind].
  rewrite clean_workflow_for_repo_object. now rewrite cleaned_dict_idempotent.
Qed.

(** ** One file of the scan *)

Lemma py_get_object (d : dict) (k : string) (default : json) :
  Py.get (JObj d) k default = Ok (get_or k d default).
Proof. unfold Py.get, get_or. now destruct (Dict.get k d). Qed.

Lemma build_item_object (m : dict) (dir_path name : string) :
  build_item (JObj m) dir_path name = Ok (item_of m dir_path name).
Proof.
  unfold build_item. rewrite !py_get_object. reflexivity.
Qed.

Lemma scan_file_handler (dir_path name : string) (f f' : file)
      (acc acc' : scan_lists) (e : exn) :
  try_body dir_path name f acc = (f', acc', Some e) ->
  scan_file dir_path name f acc = (f', record_error acc' name (handler_message e)).
Proof.
  intros H. unfold scan_file, handler_message. rewrite H.
  now destruct (exn_cls e).
Qed.

(** A file that cannot be read: one error, nothing else. *)
Lemma scan_file_unreadable (dir_path name : string) (f : file)
      (acc : scan_lists) (e : exn) :
  contents f = Raise e ->
  scan_file dir_path name f acc = (f, record_error acc name (handler_message e)).
Proof.
  intros H. apply scan_file_handler. unfold try_body. now rewrite H.
Qed.

(** A file whose document is not accepted: one error, nothing else, and
    the file stays as it was. *)
Lemma scan_file_rejected (dir_path name : string) (f : file)
      (acc : scan_lists) (data : json) :
  contents f = Ok data ->
  (forall msg out, validate_workflow data name <> Ok (true, msg, out)) ->
  scan_file dir_path name f acc =
  (f, record_error acc name (rejection_text data name)).
Proof.
  intros Hc Hv. unfold rejection_text.
  destruct (validate_workflow data name) as [[[is_valid error_msg] out]|e] eqn:E.
  - destruct is_valid; [now elim (Hv error_msg out)|].
    unfold scan_file, try_body. rewrite Hc, E. reflexivity.
  - apply scan_file_handler.
    unfold try_body. now rewrite Hc, E.
Qed.

(** A file whose document is accepted: the entry is appended, then the
    cleaned document is written if the file can be opened for writing;
    the dump may raise, which leaves the file unreadable. *)
Lemma scan_file_accepted (dir_path name : string) (f : file)
      (acc : scan_lists) (data : json) (msg : option string) (out : option json) :
  contents f = Ok data ->
  validate_workflow data name = Ok (true, msg, out) ->
  exists d m,
    data = JObj d /\
    Dict.get "_meta" d = Some (JObj m) /\
    Dict.get "id" m = Some (JStr (normalize_id name)) /\
    scan_file dir_path name f acc =
    match write_error f with
    | None =>
        match dump_error name (JObj (cleaned_dict d)) with
        | None =>
            (mkFile (Ok (JObj (cleaned_dict d))) None,
             append_item acc (item_of m dir_path name))
        | Some e =>
            (mkFile (Raise (dump_residue name (JObj (cleaned_dict d)))) None,
             record_error (append_item acc (item_of m dir_path name)) name
               (handler_message e))
        end
    | Some e =>
        (f, record_error (append_item acc (item_of m dir_path name)) name
              (handler_message e))
    end.
Proof.
  intros Hc Hv.
  destruct (proj1 (validate_workflow_valid_iff data name))
    as (d & m & -> & Hm & Hall & Hid); [now exists msg, out|].
  exists d, m. repeat split; auto.
  assert (Hprep :
            (meta <- Py.get (JObj d) "_meta" (JObj []) ;;
             cleaned_workflow <- clean_workflow_for_repo (JObj d) ;;
             item <- build_item meta dir_path name ;;
             Ok (cleaned_workflow, item))
            = Ok (JObj (cleaned_dict d), item_of m dir_path name)).
  { rewrite py_get_object. unfold get_or. rewrite Hm. cbn [bind].
    rewrite clean_workflow_for_repo_object. cbn [bind].
    rewrite build_item_object. reflexivity. }
  destruct (write_error f) as [e|] eqn:Hw.
  - apply scan_file_handler. unfold try_body.
    rewrite Hc, Hv. cbn [negb]. rewrite Hprep, Hw. reflexivity.
  - destruct (dump_error name (JObj (cleaned_dict d))) as [e|] eqn:Hd.
    + apply scan_file_handler. unfold try_body.
      rewrite Hc, Hv. cbn [negb]. rewrite Hprep, Hw, Hd. reflexivity.
    + unfold scan_file, try_body.
      rewrite Hc, Hv. cbn [negb]. rewrite Hprep, Hw, Hd. reflexivity.
Qed.

(** ** The scan as a whole *)

Lemma lists_app_nil_r (a : scan_lists) : lists_app a no_lists = a.
Proof. destruct a. unfold lists_app. simpl. now rewrite !app_nil_r. Qed.

Lemma lists_app_assoc (a b c : scan_lists) :
  lists_app (lists_app a b) c = lists_app a (lists_app b c).
Proof. unfold lists_app. simpl. now rewrite !app_assoc. Qed.

Lemma record_error_app (acc : scan_lists) (name text : string) :
  record_error acc name text = lists_app acc (record_error no_lists name text).
Proof. unfold record_error, lists_app. simpl. now rewrite app_nil_r. Qed.

Lemma append_item_app (acc : scan_lists) (item : json) :
  append_item acc item = lists_app acc (append_item no_lists item).
Proof. unfold append_item, lists_app. simpl. now rewrite !app_nil_r. Qed.

(** What one file adds to the lists does not depend on what they hold. *)
Lemma scan_file_acc (dir_path name : string) (f : file) (acc : scan_lists) :
  scan_file dir_path name f acc =
  (fst (scan_file dir_path name f no_lists),
   lists_app acc (snd (scan_file dir_path name f no_lists))).
Proof.
  destruct (contents f) as [data|e] eqn:Hc.
  - destruct (validate_workflow data name) as [[[is_valid msg] out]|e] eqn:Hv.
    + destruct is_valid.
      * destruct (scan_file_accepted dir_path name f acc data msg out Hc Hv)
          as (d & m & -> & Hm & Hid & ->).
        destruct (scan_file_accepted dir_path name f no_lists _ msg out Hc Hv)
          as (d' & m' & Hd & Hm' & Hid' & ->).
        injection Hd as <-. rewrite Hm in Hm'. injection Hm' as <-.
        destruct (write_error f);
          [|destruct (dump_error name (JObj (cleaned_dict d)))]; cbn [fst snd].
        -- rewrite record_error_app, append_item_app.
           rewrite (record_error_app (append_item no_lists _)).
           now rewrite lists_app_assoc.
        -- rewrite record_error_app, append_item_app.
           rewrite (record_error_app (append_item no_lists _)).
           now rewrite lists_app_assoc.
        -- now rewrite append_item_app.
      * rewrite !(scan_file_rejected dir_path name f _ data Hc)
          by (intros ? ?; congruence).
        cbn [fst snd]. now rewrite record_error_app.
    + rewrite !(scan_file_rejected dir_path name f _ data Hc)
        by (intros ? ?; congruence).
      cbn [fst snd]. now rewrite record_error_app.
  - rewrite !(scan_file_unreadable dir_path name f _ e Hc).
    cbn [fst snd]. now rewrite record_error_app.
Qed.

Lemma visit_scanned (dir_path name : string) (f : file) (acc : scan_lists) :
  visit dir_path name f acc =
  if scanned name then scan_file dir_path name f acc else (f, acc).
Proof.
  unfold visit, scanned.
  destruct (PyStr.endswith name ".json"); cbn [negb andb]; [|reflexivity].
  now destruct (name =? "index.json").
Qed.

Lemma visit_acc (dir_path name : string) (f : file) (acc : scan_lists) :
  visit dir_path name f acc =
  (file_after dir_path name f, lists_app acc (file_delta dir_path name f)).
Proof.
  unfold file_after, file_delta. rewrite !visit_scanned.
  destruct (scanned name).
  - apply scan_file_acc.
  - cbn [fst snd]. now rewrite lists_app_nil_r.
Qed.

Lemma scan_entries_spec (dir_path : string) (entries : listing) (acc : scan_lists) :
  scan_entries dir_path entries acc =
  (after dir_path entries, lists_app acc (scan_delta dir_path entries)).
Proof.
  revert acc. induction entries as [|[name f] rest IH]; intros acc.
  - cbn [scan_entries after map scan_delta]. now rewrite lists_app_nil_r.
  - cbn [scan_entries]. rewrite visit_acc, IH.
    cbn [after map fst snd scan_delta]. now rewrite lists_app_assoc.
Qed.

Lemma lists_app_nil_l (a : scan_lists) : lists_app no_lists a = a.
Proof. now destruct a. Qed.

Lemma scan_directory_spec (dir_path : string) (entries : listing) :
  scan_directory dir_path (Some entries) =
  (Some (after dir_path entries), scan_delta dir_path entries).
Proof.
  unfold scan_directory. rewrite scan_entries_spec. now rewrite lists_app_nil_l.
Qed.

Lemma file_cases (dir_path name : string) (f : file) : file_case dir_path name f.
Proof.
  destruct (scanned name) eqn:Hs.
  2:{ apply case_not_scanned; auto; unfold file_after, file_delta;
      rewrite visit_scanned, Hs; reflexivity. }
  assert (Hvisit : visit dir_path name f no_lists = scan_file dir_path name f no_lists)
    by (now rewrite visit_scanned, Hs).
  destruct (contents f) as [data|e] eqn:Hc.
  - destruct (validate_workflow data name) as [[[is_valid msg] out]|e] eqn:Hv.
    + destruct is_valid.
      * destruct (scan_file_accepted dir_path name f no_lists data msg out Hc Hv)
          as (d & m & -> & Hm & Hid & Hscan).
        assert (Hval : validates name f) by (now exists (JObj d), msg, out).
        destruct (write_error f) as [e|] eqn:Hw;
          [|destruct (dump_error name (JObj (cleaned_dict d))) as [e|] eqn:Hd].
        -- apply (case_unwritten _ _ _ d m e); auto;
             unfold file_after, file_delta; now rewrite Hvisit, Hscan.
        -- apply (case_cut_short _ _ _ d m e); auto;
             unfold file_after, file_delta; now rewrite Hvisit, Hscan.
        -- apply (case_written _ _ _ d m); auto;
             unfold file_after, file_delta; now rewrite Hvisit, Hscan.
      * apply (case_failed _ _ _ (rejection_text data name)); auto.
        -- intros (data' & msg' & out' & Hc' & Hv'). congruence.
        -- unfold file_after. rewrite Hvisit.
           now rewrite (scan_file_rejected dir_path name f _ data Hc)
             by (intros ? ?; congruence).
        -- unfold file_delta. rewrite Hvisit.
           now rewrite (scan_file_rejected dir_path name f _ data Hc)
             by (intros ? ?; congruence).
    + apply (case_failed _ _ _ (rejection_text data name)); auto.
      * intros (data' & msg' & out' & Hc' & Hv'). congruence.
      * unfold file_after. rewrite Hvisit.
        now rewrite (scan_file_rejected dir_path name f _ data Hc)
          by (intros ? ?; congruence).
      * unfold file_delta. rewrite Hvisit.
        now rewrite (scan_file_rejected dir_path name f _ data Hc)
          by (intros ? ?; congruence).
  - apply (case_failed _ _ _ (handler_message e)); auto.
    + intros (data' & msg' & out' & Hc' & Hv'). congruence.
    + unfold file_after. rewrite Hvisit.
      now rewrite (scan_file_unreadable dir_path name f _ e Hc).
    + unfold file_delta. rewrite Hvisit.
      now rewrite (scan_file_unreadable dir_path name f _ e Hc).
Qed.

Lemma file_delta_paired (dir_path name : string) (f : file) :
  Forall2 names_file (errors (file_delta dir_path name f))
          (skipped_files (file_delta dir_path name f)).
Proof.
  destruct (file_cases dir_path name f)
    as [? ? ->|text ? ? ? ->|d m ? ? ? ? ? ? ? ? ->|d m e ? ? ? ? ? ? ? ->
        |d m e ? ? ? ? ? ? ? ? ->];
    cbn; repeat constructor; eexists; reflexivity.
Qed.

Lemma scan_delta_paired (dir_path : string) (entries : listing) :
  Forall2 names_file (errors (scan_delta dir_path entries))
          (skipped_files (scan_delta dir_path entries)).
Proof.
  induction entries as [|[name f] rest IH]; cbn [scan_delta].
  - constructor.
  - cbn [lists_app errors skipped_files].
    apply Forall2_app; [apply file_delta_paired|exact IH].
Qed.

(** ** The entries of the catalog *)

Lemma item_from_cons (dir_path : string) (e : string * file) (rest : listing)
      (x : json) :
  item_from dir_path rest x -> item_from dir_path (e :: rest) x.
Proof.
  intros (name & f & d & m & Hin & H).
  exists name, f, d, m. split; [now right|exact H].
Qed.

Lemma scan_delta_items_iff (dir_path : string) (entries : listing) (x : json) :
  In x (items (scan_delta dir_path entries)) <-> item_from dir_path entries x.
Proof.
  induction entries as [|[n f] rest IH]; cbn [scan_delta].
  - split; [intros []|]. intros (name & f & d & m & [] & _).
  - cbn [lists_app items]. rewrite in_app_iff, IH. split.
    + intros [H|H]; [|now apply item_from_cons].
      destruct (file_cases dir_path n f)
        as [? ? Hd|text ? ? ? Hd|d m ? ? ? ? ? ? ? ? Hd|d m e ? ? ? ? ? ? ? Hd
            |d m e ? ? ? ? ? ? ? ? Hd];
        rewrite Hd in H; cbn in H; try contradiction;
        destruct H as [<-|[]]; exists n, f, d, m; repeat split; auto; now left.
    + intros (name & f0 & d & m & [Heq|Hin] & Hs & Hv & Hc & Hm & Hid & ->).
      * injection Heq as -> ->. left.
        destruct (file_cases dir_path name f0)
          as [Hs' ? Hd|text ? Hnv ? Hd|d' m' ? ? Hc' Hm' ? ? ? ? Hd
              |d' m' e ? ? Hc' Hm' ? ? ? Hd|d' m' e ? ? Hc' Hm' ? ? ? ? Hd];
          try congruence; try contradiction;
          rewrite Hd; rewrite Hc in Hc'; injection Hc' as <-;
          rewrite Hm in Hm'; injection Hm' as <-; cbn; now left.
      * right. exists name, f0, d, m. repeat split; auto.
Qed.

Lemma item_of_filename (m : dict) (dir_path name : string) :
  entry_filename (item_of m dir_path name) = Some (JStr name).
Proof. reflexivity. Qed.

Lemma item_of_sort_key (m : dict) (dir_path name id : string) :
  Dict.get "id" m = Some (JStr id) ->
  sort_key (item_of m dir_path name) = Ok id.
Proof.
  intros H. unfold sort_key, item_of, get_or. rewrite H. reflexivity.
Qed.

Lemma item_from_sort_key (dir_path : string) (entries : listing) (x : json) :
  item_from dir_path entries x -> exists k, sort_key x = Ok k.
Proof.
  intros (name & f & d & m & _ & _ & _ & _ & _ & Hid & ->).
  exists (normalize_id name). now apply item_of_sort_key.
Qed.

(** ** Stable sorting by a string key *)

Lemma string_compare_spec (a b : string) :
  CompSpec eq OrdersEx.String_as_OT.lt a b (String.compare a b).
Proof. exact (OrdersEx.String_as_OT.compare_spec a b). Qed.

Lemma string_leb_trans (a b c : string) :
  (a <=? b) = true -> (b <=? c) = true -> (a <=? c) = true.
Proof.
  unfold String.leb.
  pose proof (@StrictOrder_Irreflexive _ _ OrdersEx.String_as_OT.lt_strorder) as Hirr.
  pose proof (@StrictOrder_Transitive _ _ OrdersEx.String_as_OT.lt_strorder) as Htr.
  destruct (string_compare_spec a b) as [Hab|Hab|Hab];
    destruct (string_compare_spec b c) as [Hbc|Hbc|Hbc];
    destruct (string_compare_spec a c) as [Hac|Hac|Hac];
    intros H1 H2; try discriminate H1; try discriminate H2;
    try reflexivity; exfalso; subst;
    solve [ eapply Hirr; eauto
          | eapply Hirr; eapply Htr; eauto
          | eapply Hirr; eapply Htr; [eapply Htr|]; eauto ].
Qed.

Lemma string_leb_false (a b : string) :
  (a <=? b) = false -> (b <=? a) = true.
Proof.
  intros H. destruct (String.leb_total a b) as [H'|H']; congruence.
Qed.

Lemma insert_by_key_perm (x : string * json) (l : list (string * json)) :
  Permutation (insert_by_key x l) (x :: l).
Proof.
  induction l as [|y l IH]; simpl.
  - apply Permutation_refl.
  - destruct (fst x <=? fst y).
    + apply Permutation_refl.
    + eapply perm_trans; [apply perm_skip, IH|apply perm_swap].
Qed.

Lemma stable_sort_perm (l : list (string * json)) :
  Permutation (stable_sort l) l.
Proof.
  induction l as [|x l IH]; simpl.
  - apply perm_nil.
  - eapply perm_trans; [apply insert_by_key_perm|now apply perm_skip].
Qed.

Lemma insert_by_key_sorted (x : string * json) (l : list (string * json)) :
  StronglySorted key_le l -> StronglySorted key_le (insert_by_key x l).
Proof.
  induction 1 as [|y l Hs IH Hy]; simpl.
  - repeat constructor.
  - destruct (fst x <=? fst y) eqn:E.
    + constructor; [now constructor|].
      constructor; [exact E|].
      eapply Forall_impl; [|exact Hy].
      intros z Hz. unfold key_le in *. eapply string_leb_trans; eauto.
    + constructor; [exact IH|].
      eapply Permutation_Forall;
        [apply Permutation_sym, insert_by_key_perm|].
      constructor; [|exact Hy].
      now apply string_leb_false.
Qed.

Lemma stable_sort_sorted (l : list (string * json)) :
  StronglySorted key_le (stable_sort l).
Proof.
  induction l as [|x l IH]; simpl.
  - constructor.
  - now apply insert_by_key_sorted.
Qed.

(** Entries with equal keys keep the order they had. *)
Lemma insert_by_key_stable (k : string) (x : string * json)
      (l : list (string * json)) :
  filter (fun p => fst p =? k) (insert_by_key x l)
  = filter (fun p => fst p =? k) (x :: l).
Proof.
  induction l as [|y l IH]; [reflexivity|].
  cbn [insert_by_key].
  destruct (fst x <=? fst y) eqn:E; [reflexivity|].
  cbn [filter] in *. rewrite IH.
  destruct (fst x =? k) eqn:Ex; [|reflexivity].
  destruct (fst y =? k) eqn:Ey; [|reflexivity].
  apply String.eqb_eq in Ex, Ey. rewrite Ex, Ey in E.
  destruct (String.leb_total k k); congruence.
Qed.

Lemma stable_sort_stable (k : string) (l : list (string * json)) :
  filter (fun p => fst p =? k) (stable_sort l) = filter (fun p => fst p =? k) l.
Proof.
  induction l as [|x l IH]; [reflexivity|].
  cbn [stable_sort fold_right]. fold (stable_sort l).
  rewrite insert_by_key_stable. cbn [filter]. now rewrite IH.
Qed.

(** ** The sort of the entries *)

Lemma decorate_ok (xs : list json) :
  Forall (fun x => exists k, sort_key x = Ok k) xs ->
  exists keyed,
    decorate xs = Ok keyed /\ map snd keyed = xs /\ Forall keyed_right keyed.
Proof.
  induction 1 as [|x xs [k Hk] _ (keyed & Hd & Hmap & Hall)].
  - exists []. repeat split; constructor.
  - exists ((k, x) :: keyed). cbn [decorate]. rewrite Hk, Hd. cbn [bind].
    repeat split.
    + cbn [map snd]. now rewrite Hmap.
    + constructor; [exact Hk|exact Hall].
Qed.

Lemma keyed_sorted_id_le (l : list (string * json)) :
  Forall keyed_right l -> StronglySorted key_le l ->
  StronglySorted id_le (map snd l).
Proof.
  intros Hall Hs. induction Hs as [|p l Hs IH Hp]; cbn [map].
  - constructor.
  - inversion Hall as [|? ? Hp' Hall']; subst.
    constructor; [now apply IH|].
    apply Forall_map. rewrite Forall_forall in *.
    intros q Hq. exists (fst p), (fst q).
    repeat split; [exact Hp'|now apply Hall'|now apply Hp].
Qed.

Lemma keyed_filter_has_id (k : string) (l : list (string * json)) :
  Forall keyed_right l ->
  filter (has_id k) (map snd l) = map snd (filter (fun p => fst p =? k) l).
Proof.
  induction 1 as [|p l Hp _ IH]; [reflexivity|].
  cbn [map filter]. unfold has_id at 1. rewrite Hp, IH.
  now destruct (fst p =? k).
Qed.

(** On entries that all have a string [id] the sort returns: its result
    is a permutation of the entries, in ascending order of [id], with the
    entries of equal [id] in the order they came in. *)
Lemma sort_items_spec (xs : list json) :
  Forall (fun x => exists k, sort_key x = Ok k) xs ->
  exists sorted,
    sort_items xs = Ok sorted /\
    Permutation sorted xs /\
    StronglySorted id_le sorted /\
    forall k, filter (has_id k) sorted = filter (has_id k) xs.
Proof.
  intros H. destruct (decorate_ok xs H) as (keyed & Hd & Hmap & Hall).
  exists (map snd (stable_sort keyed)).
  assert (Hall' : Forall keyed_right (stable_sort keyed))
    by (eapply Permutation_Forall;
        [apply Permutation_sym, stable_sort_perm|exact Hall]).
  unfold sort_items. rewrite Hd. cbn [bind]. repeat split.
  - rewrite <- Hmap. apply Permutation_map, stable_sort_perm.
  - apply keyed_sorted_id_le; [exact Hall'|apply stable_sort_sorted].
  - intros k. rewrite (keyed_filter_has_id k _ Hall'), stable_sort_stable.
    rewrite <- (keyed_filter_has_id k _ Hall). now rewrite Hmap.
Qed.

Lemma scan_items_have_str_id (dir_path : string) (entries : listing) :
  Forall (fun x => exists k, sort_key x = Ok k) (items (scan_delta dir_path entries)).
Proof.
  apply Forall_forall. intros x Hx.
  apply scan_delta_items_iff in Hx. eapply item_from_sort_key; eauto.
Qed.

(** ** Writing into the directory *)

Lemma put_file_ok (entries : listing) (name : string) (c : result json) :
  can_write entries name = true -> exists entries', put_file entries name c = Ok entries'.
Proof.
  induction entries as [|[n f] rest IH]; cbn [can_write put_file].
  - intros _. eexists. reflexivity.
  - destruct (n =? name).
    + destruct (write_error f); [discriminate|]. intros _. eexists. reflexivity.
    + intros H. destruct (IH H) as [rest' ->]. eexists. reflexivity.
Qed.

Lemma put_file_ok_inv (entries entries' : listing) (name : string) (c : result json) :
  put_file entries name c = Ok entries' -> can_write entries name = true.
Proof.
  revert entries'. induction entries as [|[n f] rest IH]; intros entries';
    cbn [can_write put_file].
  - reflexivity.
  - destruct (n =? name).
    + now destruct (write_error f).
    + destruct (put_file rest name c) as [rest'|e] eqn:E; [|discriminate].
      intros _. now apply (IH rest').
Qed.

Lemma put_file_raise (entries : listing) (name : string) (c c' : result json) (e : exn) :
  put_file entries name c = Raise e -> put_file entries name c' = Raise e.
Proof.
  induction entries as [|[n f] rest IH]; cbn [put_file].
  - discriminate.
  - destruct (n =? name).
    + now destruct (write_error f).
    + destruct (put_file rest name c) as [rest'|e'] eqn:E; [discriminate|].
      cbn [bind]. intros H. injection H as ->. now rewrite (IH eq_refl).
Qed.

(** A second write goes where the first one went. *)
Lemma put_file_twice (entries entries' : listing) (name : string) (c c' : result json) :
  put_file entries name c = Ok entries' ->
  put_file entries' name c' = put_file entries name c'.
Proof.
  revert entries'. induction entries as [|[n f] rest IH]; intros entries';
    cbn [put_file].
  - intros H. injection H as <-. cbn [put_file]. now rewrite String.eqb_refl.
  - destruct (n =? name) eqn:E.
    + destruct (write_error f); [discriminate|].
      intros H. injection H as <-. cbn [put_file]. now rewrite E.
    + destruct (put_file rest name c) as [rest'|e'] eqn:Er; [|discriminate].
      cbn [bind]. intros H. injection H as <-. cbn [put_file].
      now rewrite E, (IH rest' eq_refl).
Qed.

Lemma filter_not_named_cons (name n : string) (f : file) (l : listing) :
  filter (not_named name) ((n, f) :: l) =
  if n =? name then filter (not_named name) l
  else (n, f) :: filter (not_named name) l.
Proof.
  cbn [filter]. unfold not_named at 1. cbn [fst]. now destruct (n =? name).
Qed.

Lemma put_file_others (entries entries' : listing) (name : string) (c : result json) :
  put_file entries name c = Ok entries' ->
  filter (not_named name) entries' = filter (not_named name) entries.
Proof.
  revert entries'. induction entries as [|[n f] rest IH]; intros entries';
    cbn [put_file].
  - intros H. injection H as <-. rewrite filter_not_named_cons.
    now rewrite String.eqb_refl.
  - destruct (n =? name) eqn:E.
    + destruct (write_error f); [discriminate|].
      intros H. injection H as <-. rewrite !filter_not_named_cons. now rewrite E.
    + destruct (put_file rest name c) as [rest'|e'] eqn:Er; [|discriminate].
      cbn [bind]. intros H. injection H as <-.
      rewrite !filter_not_named_cons, E. f_equal. now apply IH.
Qed.

Lemma put_file_find (entries entries' : listing) (name : string) (c : result json) :
  put_file entries name c = Ok entries' ->
  find (fun e => fst e =? name) entries' = Some (name, mkFile c None).
Proof.
  revert entries'. induction entries as [|[n f] rest IH]; intros entries';
    cbn [put_file].
  - intros H. injection H as <-. cbn [find fst]. now rewrite String.eqb_refl.
  - destruct (n =? name) eqn:E.
    + destruct (write_error f); [discriminate|].
      intros H. injection H as <-. cbn [find fst]. rewrite E.
      apply String.eqb_eq in E. now subst.
    + destruct (put_file rest name c) as [rest'|e'] eqn:Er; [|discriminate].
      cbn [bind]. intros H. injection H as <-. cbn [find fst]. rewrite E.
      now apply IH.
Qed.

(** Entries with another name stay where they are. *)
Lemma put_file_nth (entries entries' : listing) (name : string) (c : result json)
      (i : nat) (n : string) (f : file) :
  put_file entries name c = Ok entries' ->
  nth_error entries i = Some (n, f) -> n <> name ->
  nth_error entries' i = Some (n, f).
Proof.
  revert entries' i. induction entries as [|[n0 f0] rest IH]; intros entries' i;
    cbn [put_file].
  - intros _ H. destruct i; discriminate H.
  - destruct (n0 =? name) eqn:E.
    + destruct (write_error f0); [discriminate|].
      intros H. injection H as <-. destruct i; cbn; auto.
      intros H Hne. injection H as -> ->. apply String.eqb_eq in E. contradiction.
    + destruct (put_file rest name c) as [rest'|e'] eqn:Er; [|discriminate].
      cbn [bind]. intros H. injection H as <-. destruct i; cbn; auto.
Qed.

(** The same for a write whose dump completes. *)
Lemma write_file_ok (entries : listing) (name : string) (v : json) :
  can_write entries name = true -> exists entries', write_file entries name v = Ok entries'.
Proof. apply put_file_ok. Qed.

Lemma write_file_ok_inv (entries entries' : listing) (name : string) (v : json) :
  write_file entries name v = Ok entries' -> can_write entries name = true.
Proof. apply put_file_ok_inv. Qed.

Lemma write_file_raise (entries : listing) (name : string) (v v' : json) (e : exn) :
  write_file entries name v = Raise e -> write_file entries name v' = Raise e.
Proof. apply put_file_raise. Qed.

Lemma write_file_twice (entries entries' : listing) (name : string) (v v' : json) :
  write_file entries name v = Ok entries' ->
  write_file entries' name v' = write_file entries name v'.
Proof. apply put_file_twice. Qed.

Lemma write_file_others (entries entries' : listing) (name : string) (v : json) :
  write_file entries name v = Ok entries' ->
  filter (not_named name) entries' = filter (not_named name) entries.
Proof. apply put_file_others. Qed.

Lemma write_file_find (entries entries' : listing) (name : string) (v : json) :
  write_file entries name v = Ok entries' ->
  find (fun e => fst e =? name) entries' = Some (name, mkFile (Ok v) None).
Proof. apply put_file_find. Qed.

Lemma write_file_nth (entries entries' : listing) (name : string) (v : json)
      (i : nat) (n : string) (f : file) :
  write_file entries name v = Ok entries' ->
  nth_error entries i = Some (n, f) -> n <> name ->
  nth_error entries' i = Some (n, f).
Proof. apply put_file_nth. Qed.

(** ** Scanning what a scan left *)

Lemma validates_cleaned (name : string) (f : file) (d : dict) (w : option exn) :
  validates name f -> contents f = Ok (JObj d) ->
  validates name (mkFile (Ok (JObj (cleaned_dict d))) w).
Proof.
  intros (data & msg & out & Hc & Hv) Hd.
  rewrite Hd in Hc. injection Hc as <-.
  destruct (proj1 (validate_workflow_valid_iff (JObj d) name))
    as (d0 & m0 & Hd0 & Hm & Hall & Hid); [now exists msg, out|].
  injection Hd0 as <-.
  destruct (proj2 (validate_workflow_valid_iff (JObj (cleaned_dict d)) name))
    as (msg' & out' & Hv').
  { exists (cleaned_dict d), m0. repeat split; auto.
    now rewrite cleaned_dict_meta. }
  now exists (JObj (cleaned_dict d)), msg', out'.
Qed.

Lemma cut_short_iff (name : string) (f : file) :
  cut_short name f = true <->
  validates name f /\ write_error f = None /\
  exists d e,
    contents f = Ok (JObj d) /\ dump_error name (JObj (cleaned_dict d)) = Some e.
Proof.
  unfold cut_short. split.
  - destruct (contents f) as [data|e0] eqn:Hc; [|discriminate].
    destruct (validate_workflow data name) as [[[[|] msg] out]|e0] eqn:Hv;
      try discriminate.
    destruct (write_error f) as [e0|] eqn:Hw; [discriminate|].
    destruct (proj1 (validate_workflow_valid_iff data name))
      as (d & m & -> & _); [now exists msg, out|].
    rewrite clean_workflow_for_repo_object.
    destruct (dump_error name (JObj (cleaned_dict d))) as [e|] eqn:Hd;
      [|discriminate].
    intros _. split; [now exists (JObj d), msg, out|]. split; [reflexivity|].
    now exists d, e.
  - intros ((data & msg & out & Hc & Hv) & Hw & d & e & Hc' & Hd).
    rewrite Hc in Hc'. injection Hc' as ->.
    now rewrite Hc, Hv, Hw, clean_workflow_for_repo_object, Hd.
Qed.

(** A second turn of the loop over a file whose write-back was not cut
    short finds it as the first left it and adds what the first added. *)
Lemma file_after_again (dir_path name : string) (f : file) :
  cut_short name f = false ->
  file_after dir_path name (file_after dir_path name f) = file_after dir_path name f
  /\ file_delta dir_path name (file_after dir_path name f) = file_delta dir_path name f.
Proof.
  intros Hcut.
  destruct (file_cases dir_path name f)
    as [? Ha ?|text ? ? Ha ?|d m Hs Hv Hc Hm Hid Hw Hdump Ha Hd
        |d m e ? ? ? ? ? ? Ha ?|d m e ? Hv Hc ? ? Hw Hdump ? ?];
    try (rewrite Ha; now split).
  - rewrite Ha, Hd.
    pose proof (validates_cleaned name f d None Hv Hc) as Hv'.
    destruct (file_cases dir_path name (mkFile (Ok (JObj (cleaned_dict d))) None))
      as [Hs' ? ?|text ? Hnv ? ?|d' m' ? ? Hc' Hm' ? ? ? Ha' Hd'
          |d' m' e ? ? ? ? ? Hw' ? ?|d' m' e ? ? Hc' ? ? ? Hdump' ? ?];
      try congruence; try contradiction; try discriminate Hw'.
    + cbn [contents] in Hc'. injection Hc' as <-.
      rewrite cleaned_dict_meta, Hm in Hm'. injection Hm' as <-.
      rewrite Ha', Hd', cleaned_dict_idempotent. now split.
    + cbn [contents] in Hc'. injection Hc' as <-.
      rewrite cleaned_dict_idempotent in Hdump'. congruence.
  - assert (Ht : cut_short name f = true)
      by (apply cut_short_iff; repeat split; auto; now exists d, e).
    congruence.
Qed.

Lemma after_cons (dir_path name : string) (f : file) (rest : listing) :
  after dir_path ((name, f) :: rest) =
  (name, file_after dir_path name f) :: after dir_path rest.
Proof. reflexivity. Qed.

Lemma file_not_scanned (dir_path name : string) (f : file) :
  scanned name = false ->
  file_after dir_path name f = f /\ file_delta dir_path name f = no_lists.
Proof.
  intros Hs. unfold file_after, file_delta. now rewrite visit_scanned, Hs.
Qed.

Lemma file_after_again_scanned (dir_path name : string) (f : file) :
  (scanned name = true -> cut_short name f = false) ->
  file_after dir_path name (file_after dir_path name f) = file_after dir_path name f
  /\ file_delta dir_path name (file_after dir_path name f) = file_delta dir_path name f.
Proof.
  intros H. destruct (scanned name) eqn:Hs.
  - now apply file_after_again, H.
  - now rewrite !(proj1 (file_not_scanned dir_path name f Hs)).
Qed.

Lemma after_again (dir_path : string) (entries : listing) :
  none_cut_short entries ->
  after dir_path (after dir_path entries) = after dir_path entries.
Proof.
  induction entries as [|[name f] rest IH]; [reflexivity|]. intros H.
  rewrite !after_cons, IH.
  - rewrite (proj1 (file_after_again_scanned dir_path name f
                      (fun Hs => H name f (or_introl eq_refl) Hs))).
    reflexivity.
  - intros n f' Hin. apply H. now right.
Qed.

Lemma scan_delta_after (dir_path : string) (entries : listing) :
  none_cut_short entries ->
  scan_delta dir_path (after dir_path entries) = scan_delta dir_path entries.
Proof.
  induction entries as [|[name f] rest IH]; [reflexivity|]. intros H.
  rewrite after_cons. cbn [scan_delta]. rewrite IH.
  - rewrite (proj2 (file_after_again_scanned dir_path name f
                      (fun Hs => H name f (or_introl eq_refl) Hs))).
    reflexivity.
  - intros n f' Hin. apply H. now right.
Qed.

(** ** The catalog among the scanned files *)

Lemma file_after_index (dir_path : string) (f : file) :
  file_after dir_path "index.json" f = f.
Proof. unfold file_after. now rewrite visit_scanned. Qed.

Lemma file_delta_index (dir_path : string) (f : file) :
  file_delta dir_path "index.json" f = no_lists.
Proof. unfold file_delta. now rewrite visit_scanned. Qed.

(** Writing the catalog and scanning commute: the scan passes over it. *)
Lemma put_index_after (dir_path : string) (entries : listing) (c : result json) :
  put_file (after dir_path entries) "index.json" c =
  (entries' <- put_file entries "index.json" c ;; Ok (after dir_path entries')).
Proof.
  induction entries as [|[n f] rest IH].
  - change (after dir_path []) with (@nil (string * file)).
    cbn [put_file bind]. rewrite after_cons.
    now rewrite file_after_index.
  - rewrite after_cons. cbn [put_file].
    destruct (n =? "index.json") eqn:E.
    + apply String.eqb_eq in E. subst n. rewrite file_after_index.
      destruct (write_error f); [reflexivity|].
      cbn [bind]. rewrite after_cons. now rewrite file_after_index.
    + rewrite IH. destruct (put_file rest "index.json" c); reflexivity.
Qed.

Lemma put_index_delta (dir_path : string) (entries entries' : listing) (c : result json) :
  put_file entries "index.json" c = Ok entries' ->
  scan_delta dir_path entries' = scan_delta dir_path entries.
Proof.
  revert entries'. induction entries as [|[n f] rest IH]; intros entries';
    cbn [put_file].
  - intros H. injection H as <-. cbn [scan_delta].
    now rewrite file_delta_index.
  - destruct (n =? "index.json") eqn:E.
    + destruct (write_error f); [discriminate|].
      intros H. injection H as <-. apply String.eqb_eq in E. subst n.
      cbn [scan_delta]. now rewrite !file_delta_index.
    + destruct (put_file rest "index.json" c) as [rest'|e'] eqn:Er;
        [|discriminate].
      cbn [bind]. intros H. injection H as <-. cbn [scan_delta].
      now rewrite (IH rest' eq_refl).
Qed.

Lemma write_index_after (dir_path : string) (entries : listing) (v : json) :
  write_file (after dir_path entries) "index.json" v =
  (entries' <- write_file entries "index.json" v ;; Ok (after dir_path entries')).
Proof. apply put_index_after. Qed.

Lemma write_index_delta (dir_path : string) (entries entries' : listing) (v : json) :
  write_file entries "index.json" v = Ok entries' ->
  scan_delta dir_path entries' = scan_delta dir_path entries.
Proof. apply put_index_delta. Qed.

Lemma can_write_after (dir_path : string) (entries : listing) :
  can_write (after dir_path entries) "index.json" = can_write entries "index.json".
Proof.
  induction entries as [|[n f] rest IH]; [reflexivity|].
  rewrite after_cons. cbn [can_write]. rewrite IH.
  destruct (n =? "index.json") eqn:E; [|reflexivity].
  apply String.eqb_eq in E. subst n. now rewrite file_after_index.
Qed.

(** ** A run *)

Lemma generate_index_existing (directory output_file now : string)
      (entries : listing) :
  generate_index directory output_file now (Some entries) =
  match sort_items (items (scan_delta directory entries)) with
  | Raise e => (Some (after directory entries), Uncaught e)
  | Ok sorted =>
      match put_file (after directory entries) output_file
                     (dumped output_file (index_doc now sorted)) with
      | Raise e => (Some (after directory entries), Uncaught e)
      | Ok entries' =>
          (Some entries',
           match dump_error output_file (index_doc now sorted) with
           | Some e => Uncaught e
           | None =>
               match errors (scan_delta directory entries) with
               | _ :: _ => SysExit 1
               | [] => Returned
               end
           end)
      end
  end.
Proof.
  unfold generate_index. rewrite scan_directory_spec.
  destruct (sort_items (items (scan_delta directory entries))) as [sorted|e];
    [|reflexivity].
  unfold dump_to. fold (index_doc now sorted).
  destruct (put_file (after directory entries) output_file
              (dumped output_file (index_doc now sorted))); [|reflexivity].
  destruct (dump_error output_file (index_doc now sorted)); [reflexivity|].
  now destruct (errors (scan_delta directory entries)).
Qed.

Lemma generate_index_missing (directory output_file now : string) :
  generate_index directory output_file now None =
  (None,
   Uncaught (mkExn OSError
               ("[Errno 2] No such file or directory: '"
                ++ child_path directory output_file ++ "'"))).
Proof. reflexivity. Qed.

Lemma catalog_file_written (entries entries' : listing) (v : json) :
  write_file entries "index.json" v = Ok entries' ->
  catalog_file (Some entries') = Some (mkFile (Ok v) None).
Proof.
  intros H. unfold catalog_file. now rewrite (write_file_find _ _ _ _ H).
Qed.

(** A run that completed wrote the catalog, its dump having gone
    through, and ended through [sys.exit(1)] or by returning. *)
Lemma generate_index_writes (directory now : string) (entries : listing) :
  completed (snd (generate_index directory "index.json" now (Some entries))) = true ->
  exists sorted entries',
    sort_items (items (scan_delta directory entries)) = Ok sorted /\
    write_file (after directory entries) "index.json" (index_doc now sorted)
    = Ok entries' /\
    generate_index directory "index.json" now (Some entries) =
    (Some entries',
     match errors (scan_delta directory entries) with
     | _ :: _ => SysExit 1
     | [] => Returned
     end).
Proof.
  rewrite generate_index_existing.
  destruct (sort_items (items (scan_delta directory entries))) as [sorted|e];
    [|discriminate].
  unfold dumped, write_file.
  destruct (dump_error "index.json" (index_doc now sorted)) as [e|] eqn:Hd.
  - destruct (put_file (after directory entries) "index.json" _); discriminate.
  - destruct (put_file (after directory entries) "index.json"
                (Ok (index_doc now sorted))) as [entries'|e] eqn:Hw;
      [|discriminate].
    intros _. now exists sorted, entries'.
Qed.

(** A run completes when the catalog file opens for writing and the dump
    of the catalog goes through. *)
Lemma generate_index_completes (directory now : string) (entries : listing) :
  can_write entries "index.json" = true ->
  (forall sorted, dump_error "index.json" (index_doc now sorted) = None) ->
  completed (snd (generate_index directory "index.json" now (Some entries))) = true.
Proof.
  intros Hw Hd. rewrite generate_index_existing.
  destruct (sort_items_spec _ (scan_items_have_str_id directory entries))
    as (sorted & -> & _).
  unfold dumped. rewrite Hd.
  rewrite <- (can_write_after directory) in Hw.
  destruct (put_file_ok _ _ (Ok (index_doc now sorted)) Hw) as [entries' ->].
  cbn [snd]. now destruct (errors (scan_delta directory entries)).
Qed.

(** When no write-back is cut short and both runs complete, a second run
    finds the files as the first left them, ends as the first ended, and
    writes the same catalog but for the time. *)
Lemma generate_index_again (directory t1 t2 : string) (entries : listing) :
  none_cut_short entries ->
  let r1 := generate_index directory "index.json" t1 (Some entries) in
  let r2 := generate_index directory "index.json" t2 (fst r1) in
  completed (snd r1) = true ->
  completed (snd r2) = true ->
  workflow_files (fst r2) = workflow_files (fst r1) /\
  option_map without_timestamp (catalog_file (fst r2))
  = option_map without_timestamp (catalog_file (fst r1)) /\
  snd r2 = snd r1.
Proof.
  intros Hcut. cbv zeta. intros H1.
  destruct (generate_index_writes directory t1 entries H1)
    as (sorted & entries1 & Hs & Hw & ->).
  cbn [fst snd]. intros H2.
  assert (Hafter : after directory entries1 = entries1).
  { pose proof (write_index_after directory (after directory entries)
                  (index_doc t1 sorted)) as H.
    rewrite (after_again directory entries Hcut), Hw in H.
    cbn [bind] in H. congruence. }
  assert (Hdelta : scan_delta directory entries1 = scan_delta directory entries).
  { rewrite (write_index_delta directory _ _ _ Hw).
    now apply scan_delta_after. }
  destruct (generate_index_writes directory t2 entries1 H2)
    as (sorted2 & entries2 & Hs2 & Hw2 & ->).
  rewrite Hdelta, Hs in Hs2. injection Hs2 as <-.
  rewrite Hafter in Hw2.
  cbn [fst snd]. rewrite Hdelta. repeat split.
  - unfold workflow_files. cbn [option_map].
    now rewrite (write_file_others _ _ _ _ Hw2).
  - now rewrite (catalog_file_written _ _ _ Hw), (catalog_file_written _ _ _ Hw2).
Qed.

Lemma scanned_not_index (name : string) :
  scanned name = true -> name <> "index.json".
Proof. intros H ->. discriminate H. Qed.

Lemma nth_error_after (dir_path : string) (entries : listing) (i : nat)
      (name : string) (f : file) :
  nth_error entries i = Some (name, f) ->
  nth_error (after dir_path entries) i = Some (name, file_after dir_path name f).
Proof.
  intros H. unfold after. rewrite nth_error_map, H. reflexivity.
Qed.

(** A run keeps every file other than the catalog at its place, as the
    scan left it. *)
Lemma generate_index_keeps_position (directory now : string) (entries : listing)
      (i : nat) (name : string) (f : file) :
  nth_error entries i = Some (name, f) -> name <> "index.json" ->
  exists entries',
    fst (generate_index directory "index.json" now (Some entries)) = Some entries'
    /\ nth_error entries' i = Some (name, file_after directory name f).
Proof.
  intros Hi Hne. rewrite generate_index_existing.
  pose proof (nth_error_after directory entries i name f Hi) as Ha.
  destruct (sort_items (items (scan_delta directory entries))) as [sorted|e].
  - destruct (put_file (after directory entries) "index.json"
                (dumped "index.json" (index_doc now sorted)))
      as [entries'|e] eqn:Hw; cbn [fst]; eexists; split; try reflexivity.
    + eapply put_file_nth; eauto.
    + exact Ha.
  - cbn [fst]. eexists. split; [reflexivity|exact Ha].
Qed.

Lemma catalog_workflows_written (entries entries' : listing) (now : string)
      (sorted : list json) :
  write_file entries "index.json" (index_doc now sorted) = Ok entries' ->
  catalog_workflows (Some entries') = Some sorted.
Proof.
  intros H. unfold catalog_workflows.
  now rewrite (catalog_file_written _ _ _ H).
Qed.

(** In a sorted list an element that may not follow another precedes it. *)
Lemma sorted_prefix_related {A : Type} (R : A -> A -> Prop) (l1 l2 : list A) (x : A) :
  StronglySorted R (l1 ++ x :: l2)%list -> Forall (fun y => R y x) l1.
Proof.
  induction l1 as [|y l1 IH]; cbn [List.app]; intros H.
  - constructor.
  - inversion H as [|? ? Hs Hy]; subst. constructor.
    + rewrite Forall_forall in Hy. apply Hy, in_elt.
    + now apply IH.
Qed.

Lemma sorted_precedes {A : Type} (R : A -> A -> Prop) (l : list A) (x y : A) :
  StronglySorted R l -> In x l -> In y l -> ~ R y x -> x <> y ->
  exists l1 l2 l3, l = (l1 ++ x :: l2 ++ y :: l3)%list.
Proof.
  intros Hs Hx Hy Hnr Hne.
  destruct (in_split x l Hx) as (l1 & l2 & ->).
  apply in_app_or in Hy. destruct Hy as [Hy|[Hy|Hy]].
  - exfalso. apply Hnr.
    pose proof (sorted_prefix_related R l1 l2 x Hs) as H.
    rewrite Forall_forall in H. now apply H.
  - contradiction.
  - destruct (in_split y l2 Hy) as (l3 & l4 & ->).
    now exists l1, l3, l4.
Qed.

Lemma file_delta_errors (dir_path name : string) (f : file) :
  errors (file_delta dir_path name f) <> [] <-> scanned name = true /\ in_error name f.
Proof.
  unfold in_error.
  destruct (file_cases dir_path name f)
    as [Hs ? ->|text Hs Hnv ? ->|d m Hs Hv Hc ? ? Hw Hd ? ->
        |d m e Hs Hv ? ? ? Hw ? ->|d m e Hs Hv Hc ? ? Hw Hd ? ->];
    cbn [errors no_lists record_error append_item List.app].
  - split; [congruence|]. intros [Hx _]. congruence.
  - split; [auto|discriminate].
  - split; [congruence|].
    intros [_ [Hx|[Hx|Hx]]]; [contradiction|congruence|].
    apply cut_short_iff in Hx. destruct Hx as (_ & _ & d' & e & Hc' & Hd').
    congruence.
  - split; [|discriminate]. intros _. split; auto. right. left. congruence.
  - split; [|discriminate]. intros _. split; auto. right. right.
    apply cut_short_iff. split; [exact Hv|]. split; [exact Hw|]. now exists d, e.
Qed.

Lemma scan_delta_errors (dir_path : string) (entries : listing) :
  errors (scan_delta dir_path entries) <> [] <->
  exists name f, In (name, f) entries /\ scanned name = true /\ in_error name f.
Proof.
  induction entries as [|[n f] rest IH]; cbn [scan_delta].
  - split; [intros H; now elim H|]. intros (name & f & [] & _).
  - cbn [lists_app errors]. split.
    + intros H.
      destruct (errors (file_delta dir_path n f)) as [|x l] eqn:E.
      * cbn [List.app] in H. apply IH in H.
        destruct H as (name & f' & Hin & Hrest).
        exists name, f'. split; [now right|exact Hrest].
      * exists n, f. split; [now left|].
        apply (proj1 (file_delta_errors dir_path n f)). congruence.
    + intros (name & f' & [Heq|Hin] & Hs & He).
      * injection Heq as -> ->.
        pose proof (proj2 (file_delta_errors dir_path name f') (conj Hs He)) as H.
        destruct (errors (file_delta dir_path name f')); [congruence|discriminate].
      * assert (H : errors (scan_delta dir_path rest) <> [])
          by (apply IH; now exists name, f').
        destruct (errors (file_delta dir_path n f)); [exact H|discriminate].
Qed.

Lemma file_after_accepted (dir_path name : string) (f : file) (d : dict) :
  scanned name = true -> validates name f ->
  contents f = Ok (JObj d) ->
  file_after dir_path name f =
  match write_error f with
  | Some _ => f
  | None => mkFile (dumped name (JObj (cleaned_dict d))) None
  end.
Proof.
  intros Hs Hv Hc. unfold dumped.
  destruct (file_cases dir_path name f)
    as [Hs' ? ?|text ? Hnv ? ?|d' m' ? ? Hc' ? ? Hw Hd Ha ?
        |d' m' e ? ? ? ? ? Hw ? ?|d' m' e ? ? Hc' ? ? Hw Hd Ha ?];
    try congruence; try contradiction.
  - rewrite Hw. replace d with d' by congruence. now rewrite Hd.
  - now rewrite Hw.
  - rewrite Hw. replace d with d' by congruence. now rewrite Hd.
Qed.

Lemma file_after_rejected (dir_path name : string) (f : file) :
  ~ validates name f -> file_after dir_path name f = f.
Proof.
  intros Hnv.
  destruct (file_cases dir_path name f)
    as [? Ha ?|text ? ? Ha ?|d m ? Hv ? ? ? ? ? ? ?|d m e ? ? ? ? ? ? Ha ?
        |d m e ? Hv ? ? ? ? ? ? ?];
    auto; contradiction.
Qed.

Lemma file_delta_rejected (dir_path name : string) (f : file) :
  scanned name = true -> ~ validates name f ->
  exists text, file_delta dir_path name f = record_error no_lists name text.
Proof.
  intros Hs Hnv.
  destruct (file_cases dir_path name f)
    as [Hs' ? ?|text ? ? ? Hd|d m ? Hv ? ? ? ? ? ? ?|d m e ? Hv ? ? ? ? ? ?
        |d m e ? Hv ? ? ? ? ? ? ?];
    try congruence; try contradiction.
  now exists text.
Qed.

Lemma scan_delta_incl (dir_path : string) (entries : listing) (name : string) (f : file) :
  In (name, f) entries ->
  incl (errors (file_delta dir_path name f)) (errors (scan_delta dir_path entries))
  /\ incl (skipped_files (file_delta dir_path name f))
          (skipped_files (scan_delta dir_path entries)).
Proof.
  induction entries as [|[n f0] rest IH]; [intros []|].
  cbn [scan_delta lists_app errors skipped_files].
  intros [Heq|Hin].
  - injection Heq as -> ->. split; apply incl_appl, incl_refl.
  - destruct (IH Hin) as [H1 H2]. split; now apply incl_appr.
Qed.

Lemma names_unique (entries : listing) (name : string) (f f' : file) :
  NoDup (map fst entries) -> In (name, f) entries -> In (name, f') entries -> f = f'.
Proof.
  induction entries as [|[n f0] rest IH]; [intros _ []|].
  cbn [map fst]. intros Hnd. inversion Hnd as [|? ? Hn Hnd']; subst.
  intros [H1|H1] [H2|H2].
  - congruence.
  - injection H1 as -> ->. elim Hn. apply (in_map fst) in H2. exact H2.
  - injection H2 as -> ->. elim Hn. apply (in_map fst) in H1. exact H1.
  - now apply IH.
Qed.

(** ** The filename and the identifier *)

Lemma string_length_app (s t : string) :
  String.length (s ++ t) = String.length s + String.length t.
Proof. induction s as [|c s IH]; simpl; auto. Qed.

Lemma substring_app_right (s t : string) :
  substring (String.length s) (String.length t) (s ++ t) = t.
Proof.
  induction s as [|c s IH]; simpl; auto.
  induction t as [|c t IH]; simpl; auto. now rewrite IH.
Qed.

Lemma substring_app_left (s t : string) :
  substring 0 (String.length s) (s ++ t) = s.
Proof.
  induction s as [|c s IH]; simpl.
  - now destruct t.
  - now rewrite IH.
Qed.

Lemma endswith_app (s t : string) : PyStr.endswith (s ++ t) t = true.
Proof.
  unfold PyStr.endswith. rewrite string_length_app.
  replace (String.length s + String.length t - String.length t)
    with (String.length s) by lia.
  rewrite substring_app_right, String.eqb_refl.
  rewrite andb_true_r. apply Nat.leb_le. lia.
Qed.

Lemma filename_stem_app (stem : string) : filename_stem (stem ++ ".json") = stem.
Proof.
  unfold filename_stem. rewrite endswith_app, string_length_app.
  replace (String.length stem + String.length ".json" - 5)
    with (String.length stem) by (simpl; lia).
  apply substring_app_left.
Qed.

(** An occurrence of [.json] at the head of [stem ++ ".json"] lies inside
    a non-empty [stem]: the pattern does not overlap itself. *)
Lemma prefix_json_app (stem : string) :
  stem <> "" ->
  prefix ".json" (stem ++ ".json") = prefix ".json" stem.
Proof.
  intros Hne.
  destruct stem as [|c0 [|c1 [|c2 [|c3 [|c4 rest]]]]];
    [congruence|..]; cbn [String.append prefix];
    repeat match goal with
           | |- context [ascii_dec ?a ?b] => destruct (ascii_dec a b); try subst
           end;
    try reflexivity; try discriminate.
  now destruct rest.
Qed.

Lemma replace_from_single (stem : string) :
  PyStr.contains ".json" stem = false ->
  PyStr.replace_from ".json" "" 0 (stem ++ ".json") = stem.
Proof.
  induction stem as [|c stem IH]; [reflexivity|].
  cbn [PyStr.contains]. intros H. apply orb_false_iff in H. destruct H as [Hp Hc].
  change (String c stem ++ ".json") with (String c (stem ++ ".json")).
  cbn [PyStr.replace_from].
  change (String c (stem ++ ".json")) with (String c stem ++ ".json").
  rewrite prefix_json_app by discriminate. rewrite Hp.
  now rewrite IH.
Qed.

(** Where the stem holds no further [.json], [normalize_id] removes the
    extension and nothing else. *)
Lemma normalize_id_single_extension (stem : string) :
  PyStr.contains ".json" stem = false ->
  normalize_id (stem ++ ".json") = filename_stem (stem ++ ".json").
Proof.
  intros H. rewrite filename_stem_app. unfold normalize_id.
  rewrite endswith_app. unfold PyStr.replace. now apply replace_from_single.
Qed.

Lemma normalize_id_no_extension (filename : string) :
  PyStr.endswith filename ".json" = false ->
  normalize_id filename = filename /\ filename_stem filename = filename.
Proof.
  intros H. unfold normalize_id, filename_stem. now rewrite H.
Qed.

Lemma decorate_snd (xs : list json) (keyed : list (string * json)) :
  decorate xs = Ok keyed -> map snd keyed = xs.
Proof.
  revert keyed. induction xs as [|x xs IH]; intros keyed; cbn [decorate].
  - intros H. now injection H as <-.
  - destruct (sort_key x) as [k|e]; [|discriminate].
    destruct (decorate xs) as [rest|e]; [|discriminate].
    cbn [bind]. intros H. injection H as <-. cbn [map snd].
    now rewrite (IH rest eq_refl).
Qed.

Lemma sort_items_perm (xs sorted : list json) :
  sort_items xs = Ok sorted -> Permutation sorted xs.
Proof.
  unfold sort_items. destruct (decorate xs) as [keyed|e] eqn:E; [|discriminate].
  cbn [bind]. intros H. injection H as <-.
  pose proof (decorate_snd xs keyed E) as Hsnd.
  rewrite <- Hsnd. apply Permutation_map, stable_sort_perm.
Qed.

Lemma scan_delta_skipped_in_error (dir_path : string) (entries : listing)
      (name : string) :
  In name (skipped_files (scan_delta dir_path entries)) ->
  exists f, In (name, f) entries /\ scanned name = true /\ in_error name f.
Proof.
  induction entries as [|[n f] rest IH]; cbn [scan_delta].
  - intros [].
  - cbn [lists_app skipped_files]. intros H. apply in_app_or in H.
    destruct H as [H|H].
    + unfold in_error.
      destruct (file_cases dir_path n f)
        as [? ? Hd|text ? ? ? Hd|d m ? ? ? ? ? ? ? ? Hd|d m e ? ? ? ? ? Hw ? Hd
            |d m e ? Hv Hc ? ? Hw Hdump ? Hd];
        rewrite Hd in H; cbn in H; try contradiction;
        destruct H as [<-|[]]; exists f; (split; [now left|]); split; auto.
      * right. left. congruence.
      * right. right. apply cut_short_iff.
        split; [exact Hv|]. split; [exact Hw|]. now exists d, e.
    + destruct (IH H) as (f' & Hin & Hs). exists f'. split; auto. now right.
Qed.

(** ** The program on sample inputs *)

Example normalize_id_plain : normalize_id "hello.json" = "hello".
Proof. reflexivity. Qed.

Example validate_workflow_sample :
  validate_workflow (JObj (sample_doc "hello")) "hello.json"
  = Ok (true, None, Some (JObj (sample_doc "hello"))).
Proof. reflexivity. Qed.

Example validate_workflow_sample_missing :
  validate_workflow (JObj [("_meta", JObj [("id", JStr "x"); ("author", JStr "me")])])
                    "x.json"
  = Ok (false, Some "_meta缺少必需字段: name, description, version, vFlowLevel", None).
Proof. reflexivity. Qed.

Example validate_workflow_sample_raises :
  validate_workflow (JObj [("_meta", JNull)]) "x.json"
  = Raise (mkExn TypeError "argument of type 'NoneType' is not iterable").
Proof. reflexivity. Qed.

(** A file that validates but cannot be opened for writing is both in the
    catalog and among the errors. *)
Example scan_directory_sample_read_only :
  snd (scan_directory "workflows"
         (Some [("a.json",
                 mkFile (Ok (JObj (sample_doc "a")))
                        (Some (mkExn OSError "[Errno 13] Permission denied: 'workflows/a.json'")))]))
  = mkLists [item_of [("id", JStr "a"); ("name", JStr "Demo"); ("description", JStr "");
                      ("author", JStr "someone"); ("version", JStr "1.0.0");
                      ("vFlowLevel", JInt 1)] "workflows" "a.json"]
            ["❌ a.json: [Errno 13] Permission denied: 'workflows/a.json'"]
            ["a.json"].
Proof. reflexivity. Qed.

(** ** The properties of the specification *)

(** C1. For every document (a JSON object) [clean_workflow_for_repo]
    returns a document in which the three runtime flags are present and
    false and every other top-level field, known or not, is as it was in
    the input; and a run writes this document back: a scanned file whose
    document is accepted holds the cleaned document afterwards when the
    write-back succeeded, that is, when the file opened for writing and
    the dump of the cleaned document went through.  Where the file does
    not open it is left as it was, and where the dump raises it is left
    cut short, no longer a document. *)
Theorem clean_workflow_for_repo_forces_flags (d : dict) :
  (exists d',
      clean_workflow_for_repo (JObj d) = Ok (JObj d') /\
      (forall k, In k runtime_flags -> Dict.get k d' = Some (JBool false)) /\
      (forall k, ~ In k runtime_flags -> Dict.get k d' = Dict.get k d)) /\
  (forall (directory now : string) (entries : listing) (i : nat)
          (name : string) (f : file),
      nth_error entries i = Some (name, f) ->
      scanned name = true ->
      contents f = Ok (JObj d) ->
      validate_workflow (JObj d) name = Ok (true, None, Some (JObj d)) ->
      exists entries' cleaned,
        clean_workflow_for_repo (JObj d) = Ok cleaned /\
        fst (generate_index directory "index.json" now (Some entries))
        = Some entries' /\
        (write_error f = None -> dump_error name cleaned = None ->
         nth_error entries' i = Some (name, mkFile (Ok cleaned) None)) /\
        (write_error f = None -> dump_error name cleaned <> None ->
         nth_error entries' i
         = Some (name, mkFile (Raise (dump_residue name cleaned)) None)) /\
        (write_error f <> None -> nth_error entries' i = Some (name, f))).
Proof.
  split.
  - exists (cleaned_dict d). split; [reflexivity|]. split.
    + intros k. apply cleaned_dict_flag.
    + intros k. apply cleaned_dict_other.
  - intros directory now entries i name f Hi Hs Hc Hv.
    destruct (generate_index_keeps_position directory now entries i name f Hi
                (scanned_not_index name Hs)) as (entries' & Hrun & Hnth).
    exists entries', (JObj (cleaned_dict d)).
    split; [apply clean_workflow_for_repo_object|]. split; [exact Hrun|].
    rewrite Hnth, (file_after_accepted directory name f d Hs); auto;
      [|now exists (JObj d), None, (Some (JObj d))].
    unfold dumped. repeat split.
    + intros -> ->. reflexivity.
    + intros ->. destruct (dump_error name (JObj (cleaned_dict d)));
        [reflexivity|congruence].
    + destruct (write_error f); [reflexivity|congruence].
Qed.

(** C2 (the code departs from it). [normalize_id] removes every occurrence
    of [.json] from a filename that ends in [.json], not only the trailing
    extension: for [a.json.json] it gives [a], where the filename with its
    extension removed is [a.json]. *)
Theorem normalize_id_removes_every_occurrence :
  normalize_id "a.json.json" = "a" /\
  filename_stem "a.json.json" = "a.json" /\
  normalize_id "a.json.json" <> filename_stem "a.json.json".
Proof. repeat split; try reflexivity. discriminate. Qed.

(** C3 (the code departs from it). A document with a [_meta] object that
    has the six required fields and whose [id] is the filename with its
    extension removed is reported invalid when the stem holds [.json]:
    under the filename [a.json.json] the identifier [a.json] is rejected,
    the expected identifier being [a]. *)
Theorem validate_workflow_rejects_stem_identifier :
  filename_stem "a.json.json" = "a.json" /\
  validate_workflow (JObj [("_meta", full_meta "a.json")]) "a.json.json"
  = Ok (false, Some "_meta.id 不匹配: 文件名='a', _meta.id='a.json'", None).
Proof. split; reflexivity. Qed.

(** What [validate_workflow] reports for a document whose [_meta] object
    lacks required fields: the message lists exactly the missing fields,
    in the order of [required_meta_fields]. *)
Lemma validate_workflow_missing_fields (d m : dict) (filename : string) :
  Dict.get "_meta" d = Some (JObj m) ->
  missing_in m <> [] ->
  validate_workflow (JObj d) filename
  = Ok (false,
        Some ("_meta缺少必需字段: " ++ PyStr.join ", " (missing_in m)),
        None)
  /\ forall field,
      In field (missing_in m) <->
      In field required_meta_fields /\ Dict.mem field m = false.
Proof.
  intros Hm Hmiss. split.
  - rewrite (validate_workflow_object d m filename Hm).
    destruct (missing_in m); [congruence|reflexivity].
  - intros field. unfold missing_in. rewrite filter_In.
    now rewrite negb_true_iff.
Qed.

(** C4. When the catalog write succeeded (the run ended by returning or
    through [sys.exit], not with an exception of the write), the entries
    of the catalog the run wrote are the entries the scan collected, in
    ascending order of [id], entries of equal [id] keeping the order of
    the scan; so the entry of a file whose identifier is strictly smaller
    comes first, in whatever order the directory was enumerated ([a.json]
    before [b.json]). *)
Theorem catalog_sorted_by_id (directory now : string) (entries : listing) :
  completed (snd (generate_index directory "index.json" now (Some entries))) = true ->
  exists ws,
    written_entries directory now entries = Some ws /\
    Permutation ws (items (snd (scan_directory directory (Some entries)))) /\
    StronglySorted id_le ws /\
    (forall k,
        filter (has_id k) ws
        = filter (has_id k) (items (snd (scan_directory directory (Some entries))))) /\
    (forall n1 n2 f1 f2,
        In (n1, f1) entries -> In (n2, f2) entries ->
        scanned n1 = true -> scanned n2 = true ->
        validates n1 f1 -> validates n2 f2 ->
        (normalize_id n2 <=? normalize_id n1) = false ->
        exists l1 x1 l2 x2 l3,
          ws = (l1 ++ x1 :: l2 ++ x2 :: l3)%list /\
          entry_filename x1 = Some (JStr n1) /\
          sort_key x1 = Ok (normalize_id n1) /\
          entry_filename x2 = Some (JStr n2) /\
          sort_key x2 = Ok (normalize_id n2)).
Proof.
  intros Hw. unfold written_entries. rewrite scan_directory_spec. cbn [snd].
  destruct (generate_index_writes directory now entries Hw)
    as (sorted & entries' & Hs & Hw' & ->).
  cbn [fst]. rewrite (catalog_workflows_written _ _ _ _ Hw').
  destruct (sort_items_spec _ (scan_items_have_str_id directory entries))
    as (sorted' & Hs' & Hperm & Hsorted & Hstable).
  rewrite Hs in Hs'. injection Hs' as <-.
  exists sorted. repeat split; auto.
  intros n1 n2 f1 f2 Hin1 Hin2 Hsc1 Hsc2 Hv1 Hv2 Hlt.
  assert (Hitem : forall n f,
             In (n, f) entries -> scanned n = true -> validates n f ->
             exists x, In x sorted /\ entry_filename x = Some (JStr n) /\
                       sort_key x = Ok (normalize_id n)).
  { intros n f Hin Hsc (data & msg & out & Hc & Hv).
    destruct (proj1 (validate_workflow_valid_iff data n))
      as (d & m & -> & Hm & Hall & Hid); [now exists msg, out|].
    exists (item_of m directory n). split; [|split].
    - apply (Permutation_in _ (Permutation_sym Hperm)).
      apply scan_delta_items_iff. exists n, f, d, m. repeat split; auto.
      now exists (JObj d), msg, out.
    - apply item_of_filename.
    - now apply item_of_sort_key. }
  destruct (Hitem n1 f1 Hin1 Hsc1 Hv1) as (x1 & Hx1 & Hf1 & Hk1).
  destruct (Hitem n2 f2 Hin2 Hsc2 Hv2) as (x2 & Hx2 & Hf2 & Hk2).
  destruct (sorted_precedes id_le sorted x1 x2 Hsorted Hx1 Hx2)
    as (l1 & l2 & l3 & ->).
  - intros (a & b & Ha & Hb & Hab). congruence.
  - intros ->. rewrite Hk1 in Hk2. injection Hk2 as Heq. rewrite Heq in Hlt.
    destruct (String.leb_total (normalize_id n2) (normalize_id n2)); congruence.
  - exists l1, x1, l2, x2, l3. repeat split; auto.
Qed.

(** A run over a directory that does not exist leaves it missing, so a
    second run ends as the first. *)
Lemma generate_index_again_missing (directory t1 t2 : string) :
  let r1 := generate_index directory "index.json" t1 None in
  let r2 := generate_index directory "index.json" t2 (fst r1) in
  fst r2 = fst r1 /\ snd r2 = snd r1.
Proof.
  cbv zeta. rewrite generate_index_missing. cbn [fst snd].
  rewrite generate_index_missing. now cbn [fst snd].
Qed.

(** Files that are already normalized and whose dump goes through are
    left as they are by a run. *)
Lemma normalized_file_unchanged (dir_path name : string) (d : dict) :
  cleaned_dict d = d ->
  dump_error name (JObj d) = None ->
  file_after dir_path name (mkFile (Ok (JObj d)) None) = mkFile (Ok (JObj d)) None.
Proof.
  intros Hn Hd.
  destruct (file_cases dir_path name (mkFile (Ok (JObj d)) None))
    as [? Ha ?|text ? ? Ha ?|d' m ? ? Hc ? ? ? ? Ha ?|d' m e ? ? ? ? ? ? Ha ?
        |d' m e ? ? Hc ? ? ? Hd' Ha ?];
    auto; cbn [contents] in Hc; injection Hc as <-.
  - now rewrite Ha, Hn.
  - rewrite Hn in Hd'. congruence.
Qed.

(** For a directory that exists and a run whose catalog write succeeded,
    the exit status is not zero exactly when a scanned file produced an
    error; an empty directory gives a catalog with no entries and status
    zero. *)
Lemma exit_status_of_existing_directory (directory now : string) (entries : listing) :
  (completed (snd (generate_index directory "index.json" now (Some entries))) = true ->
   (exit_status (snd (generate_index directory "index.json" now (Some entries))) <> 0%Z
    <-> exists name f,
         In (name, f) entries /\ scanned name = true /\ in_error name f))
  /\ (dump_error "index.json" (index_doc now []) = None ->
      generate_index directory "index.json" now (Some [])
      = (Some [("index.json",
                mkFile (Ok (JObj [("version", JStr "1.0");
                                  ("last_updated", JStr now);
                                  ("total_count", JInt 0);
                                  ("workflows", JArr [])])) None)],
         Returned)).
Proof.
  split.
  - intros Hw.
    destruct (generate_index_writes directory now entries Hw)
      as (sorted & entries' & Hs & Hw' & ->).
    cbn [snd]. rewrite <- (scan_delta_errors directory entries).
    destruct (errors (scan_delta directory entries)); cbn [exit_status].
    + split; intros H; now elim H.
    + split; intros _; discriminate.
  - intros Hd. rewrite generate_index_existing.
    change (sort_items (items (scan_delta directory []))) with (Ok (@nil json)).
    change (after directory []) with (@nil (string * file)).
    unfold dumped. rewrite Hd. reflexivity.
Qed.

(** C6 (the code departs from it). When the directory does not exist no
    file produces an error, yet the process ends with a non-zero status:
    writing the catalog raises an exception that nothing catches. *)
Theorem missing_directory_exit_status (directory now : string) :
  errors (snd (scan_directory directory None)) = [] /\
  exit_status (snd (main ["generate-index.py"; directory] now None)) = 1%Z.
Proof. split; reflexivity. Qed.

(** C7 (the code departs from it). When the directory does not exist the
    scan returns at once with three empty lists, but the run does not
    complete: it goes on to write the catalog into that directory, which
    raises. *)
Theorem missing_directory_run_raises (directory now : string) :
  scan_directory directory None = (None, no_lists) /\
  generate_index directory "index.json" now None
  = (None,
     Uncaught (mkExn OSError
                 ("[Errno 2] No such file or directory: '"
                  ++ child_path directory "index.json" ++ "'"))).
Proof. split; reflexivity. Qed.

(** C8. A scanned file whose document fails validation gets no entry,
    neither among the collected entries nor in the catalog written; an
    error line naming the file and carrying the validator's message is
    recorded and the file is listed as skipped; and after the run the file
    is on disk as it was. *)
Theorem rejected_file_left_alone (directory now : string) (entries : listing)
        (i : nat) (name : string) (f : file) (data : json)
        (msg : option string) (out : option json) :
  NoDup (map fst entries) ->
  nth_error entries i = Some (name, f) ->
  scanned name = true ->
  contents f = Ok data ->
  validate_workflow data name = Ok (false, msg, out) ->
  let acc := snd (scan_directory directory (Some entries)) in
  let run := generate_index directory "index.json" now (Some entries) in
  (forall x, In x (items acc) -> entry_filename x <> Some (JStr name)) /\
  (forall ws x,
      (forall e, snd run <> Uncaught e) ->
      catalog_workflows (fst run) = Some ws ->
      In x ws -> entry_filename x <> Some (JStr name)) /\
  In ("❌ " ++ name ++ ": " ++ format_opt msg) (errors acc) /\
  In name (skipped_files acc) /\
  (exists entries',
      fst run = Some entries' /\ nth_error entries' i = Some (name, f)).
Proof.
  intros Hnd Hi Hs Hc Hv. cbv zeta. rewrite scan_directory_spec. cbn [snd].
  assert (Hin : In (name, f) entries) by (eapply nth_error_In; eauto).
  assert (Hnv : ~ validates name f).
  { intros (data' & msg' & out' & Hc' & Hv'). congruence. }
  assert (Hitems : forall x, In x (items (scan_delta directory entries)) ->
                             entry_filename x <> Some (JStr name)).
  { intros x Hx Hf. apply scan_delta_items_iff in Hx.
    destruct Hx as (n & f' & d & m & Hin' & _ & Hv' & _ & _ & _ & ->).
    rewrite item_of_filename in Hf. injection Hf as ->.
    now rewrite (names_unique entries name f f' Hnd Hin Hin') in Hnv. }
  assert (Hdelta : file_delta directory name f
                   = record_error no_lists name (format_opt msg)).
  { unfold file_delta. rewrite visit_scanned, Hs.
    rewrite (scan_file_rejected directory name f no_lists data Hc)
      by (intros ? ?; congruence).
    unfold rejection_text. now rewrite Hv. }
  destruct (scan_delta_incl directory entries name f Hin) as [Herr Hskip].
  rewrite Hdelta in Herr, Hskip.
  split; [exact Hitems|]. split; [|split; [|split]].
  - intros ws x Hrun Hws Hx. apply Hitems.
    assert (Hcomp : completed (snd (generate_index directory "index.json" now
                                      (Some entries))) = true).
    { destruct (snd (generate_index directory "index.json" now (Some entries)))
        as [| |e]; try reflexivity. now elim (Hrun e). }
    destruct (generate_index_writes directory now entries Hcomp)
      as (sorted & entries' & Hsort & Hw & Heq).
    rewrite Heq in Hws.
    cbn [fst] in Hws. rewrite (catalog_workflows_written _ _ _ _ Hw) in Hws.
    injection Hws as <-.
    apply (Permutation_in _ (sort_items_perm _ _ Hsort)). exact Hx.
  - apply Herr. now left.
  - apply Hskip. now left.
  - destruct (generate_index_keeps_position directory now entries i name f Hi
                (scanned_not_index name Hs)) as (entries' & Hrun & Hnth).
    exists entries'. split; [exact Hrun|].
    now rewrite Hnth, (file_after_rejected directory name f Hnv).
Qed.

(** C9. After a scan the list of errors and the list of skipped files have
    the same length and match one to one: each error line names the
    skipped file at the same position, and each skipped name is that of a
    scanned file of the directory that produced an error. *)
Theorem scan_directory_errors_match_skipped (directory : string)
        (fs : option listing) :
  let acc := snd (scan_directory directory fs) in
  List.length (errors acc) = List.length (skipped_files acc) /\
  Forall2 names_file (errors acc) (skipped_files acc) /\
  (forall name,
      In name (skipped_files acc) ->
      exists entries f,
        fs = Some entries /\ In (name, f) entries /\
        scanned name = true /\ in_error name f).
Proof.
  cbv zeta. destruct fs as [entries|].
  - rewrite scan_directory_spec. cbn [snd].
    pose proof (scan_delta_paired directory entries) as Hp.
    split; [eapply Forall2_length; eauto|]. split; [exact Hp|].
    intros name Hn.
    destruct (scan_delta_skipped_in_error directory entries name Hn)
      as (f & Hin & Hs & He).
    now exists entries, f.
  - cbn. split; [reflexivity|]. split; [constructor|]. intros name [].
Qed.

(** C10. The verdict and the message of [validate_workflow] depend on the
    document only through its [_meta]: two documents with the same
    [_meta], validated under the same filename, get the same verdict and
    message, whatever their other top-level fields. *)
Theorem validate_workflow_depends_on_meta_only (d1 d2 : dict) (filename : string) :
  Dict.get "_meta" d1 = Dict.get "_meta" d2 ->
  verdict (validate_workflow (JObj d1) filename)
  = verdict (validate_workflow (JObj d2) filename).
Proof.
  intros H. destruct (Dict.get "_meta" d2) as [meta|] eqn:H2.
  - rewrite (validate_workflow_with_meta d1 meta filename H).
    rewrite (validate_workflow_with_meta d2 meta filename H2).
    rewrite (validate_meta_data (JObj d1) (JObj d2) meta filename).
    destruct (validate_meta (JObj d2) meta filename) as [[[b msg] [o|]]|e];
      reflexivity.
  - now rewrite !validate_workflow_no_meta.
Qed.

(** ** Further properties of the program *)

Lemma after_app (dir_path : string) (es1 es2 : listing) :
  after dir_path (es1 ++ es2)%list
  = (after dir_path es1 ++ after dir_path es2)%list.
Proof. unfold after. apply map_app. Qed.

Lemma scan_delta_app (dir_path : string) (es1 es2 : listing) :
  scan_delta dir_path (es1 ++ es2)%list
  = lists_app (scan_delta dir_path es1) (scan_delta dir_path es2).
Proof.
  induction es1 as [|[n f] rest IH]; cbn [List.app scan_delta].
  - now rewrite lists_app_nil_l.
  - now rewrite IH, lists_app_assoc.
Qed.

Lemma no_item_for_failed (dir_path : string) (entries : listing)
      (name : string) (f : file) :
  NoDup (map fst entries) -> In (name, f) entries -> ~ validates name f ->
  forall x, In x (items (scan_delta dir_path entries)) ->
            entry_filename x <> Some (JStr name).
Proof.
  intros Hnd Hin Hnv x Hx Hf. apply scan_delta_items_iff in Hx.
  destruct Hx as (n & f' & d & m & Hin' & _ & Hv' & _ & _ & _ & ->).
  rewrite item_of_filename in Hf. injection Hf as ->.
  now rewrite (names_unique entries name f f' Hnd Hin Hin') in Hnv.
Qed.

(** X1. For a stem that holds no [.json], [normalize_id] gives the stem
    back from the filename [stem.json]. *)
Theorem normalize_id_of_stem (stem : string) :
  PyStr.contains ".json" stem = false ->
  normalize_id (stem ++ ".json") = stem.
Proof.
  intros H. rewrite (normalize_id_single_extension stem H).
  apply filename_stem_app.
Qed.

(** X2. [validate_workflow] accepts a document exactly when it is an object
    whose [_meta] is an object that has the six required keys, whatever
    their values, and whose [id] is the string [normalize_id filename]; and
    whenever it reports a document valid it returns no message and the
    document itself. *)
Theorem validate_workflow_accepts_exactly (data : json) (filename : string) :
  (validate_workflow data filename = Ok (true, None, Some data) <->
   exists d m,
     data = JObj d /\
     Dict.get "_meta" d = Some (JObj m) /\
     (forall field, In field required_meta_fields -> Dict.mem field m = true) /\
     Dict.get "id" m = Some (JStr (normalize_id filename)))
  /\ match validate_workflow data filename with
     | Ok (true, msg, out) => msg = None /\ out = Some data
     | _ => True
     end.
Proof.
  split.
  - rewrite <- validate_workflow_valid_iff. split.
    + intros H. now exists None, (Some data).
    + intros (msg & out & H).
      destruct (validate_workflow_valid_result data filename msg out H)
        as [-> ->].
      exact H.
  - destruct (validate_workflow data filename) as [[[[|] msg] out]|e] eqn:E;
      auto.
    now apply (validate_workflow_valid_result data filename).
Qed.

(** X3. When the [_meta] object lacks required keys, the document is
    rejected with a message that lists exactly the missing keys, in the
    order id, name, description, author, version, vFlowLevel, whatever the
    [id] is. *)
Theorem validate_workflow_lists_missing_fields (d m : dict) (filename : string) :
  Dict.get "_meta" d = Some (JObj m) ->
  filter (fun field => negb (Dict.mem field m)) required_meta_fields <> [] ->
  validate_workflow (JObj d) filename
  = Ok (false,
        Some ("_meta缺少必需字段: "
              ++ PyStr.join ", "
                   (filter (fun field => negb (Dict.mem field m))
                           required_meta_fields)),
        None).
Proof.
  intros Hm Hmiss.
  exact (proj1 (validate_workflow_missing_fields d m filename Hm Hmiss)).
Qed.

(** X4. When the [_meta] object has the six required keys but its [id] is
    not the string [normalize_id filename], the document is rejected with a
    message that cites the expected identifier and the declared one. *)
Theorem validate_workflow_reports_id_mismatch (d m : dict) (filename : string)
        (meta_id : json) :
  Dict.get "_meta" d = Some (JObj m) ->
  (forall field, In field required_meta_fields -> Dict.mem field m = true) ->
  Dict.get "id" m = Some meta_id ->
  meta_id <> JStr (normalize_id filename) ->
  validate_workflow (JObj d) filename
  = Ok (false,
        Some ("_meta.id 不匹配: 文件名='" ++ normalize_id filename
              ++ "', _meta.id='" ++ format meta_id ++ "'"),
        None).
Proof.
  intros Hm Hall Hid Hne.
  rewrite (validate_workflow_object d m filename Hm).
  assert (Hmiss : missing_in m = []).
  { apply filter_nil_iff. intros x Hx. now rewrite (Hall x Hx). }
  rewrite Hmiss. cbn [Py.getitem]. rewrite Hid. cbn [bind].
  assert (Heq : Py.eq_str meta_id (normalize_id filename) = false).
  { destruct meta_id as [| b | n | x | s | xs | kvs]; try reflexivity.
    cbn [Py.eq_str]. apply String.eqb_neq. congruence. }
  now rewrite Heq.
Qed.

(** X5. A document that is [null], a boolean or a number, or an object
    whose [_meta] is one of these, makes [validate_workflow] raise a
    TypeError instead of returning a verdict. *)
Theorem validate_workflow_raises_on_scalar (data : json) (filename : string) :
  scalar data = true \/
  (exists d meta,
      data = JObj d /\ Dict.get "_meta" d = Some meta /\ scalar meta = true) ->
  exists e,
    validate_workflow data filename = Raise e /\ exn_cls e = TypeError.
Proof.
  intros [H|(d & meta & -> & Hm & H)].
  - destruct data; try discriminate H; eexists; split; reflexivity.
  - rewrite (validate_workflow_with_meta d meta filename Hm).
    destruct meta; try discriminate H; eexists; split; reflexivity.
Qed.

Lemma accepts_iff (name : string) (f : file) :
  accepts name f = true <-> validates name f.
Proof.
  unfold accepts, validates. split.
  - destruct (contents f) as [data|e]; [|discriminate].
    destruct (validate_workflow data name) as [[[[|] msg] out]|e] eqn:E;
      try discriminate.
    intros _. now exists data, msg, out.
  - intros (data & msg & out & -> & ->). reflexivity.
Qed.

Lemma file_delta_raised (dir_path name : string) (f : file) (e : exn) :
  scanned name = true ->
  contents f = Raise e \/
  (exists data, contents f = Ok data /\ validate_workflow data name = Raise e) ->
  file_delta dir_path name f = record_error no_lists name (handler_message e)
  /\ ~ validates name f.
Proof.
  intros Hs H. unfold file_delta. rewrite visit_scanned, Hs.
  destruct H as [Hc|(data & Hc & Hv)].
  - rewrite (scan_file_unreadable dir_path name f no_lists e Hc). split; auto.
    intros (data' & msg' & out' & Hc' & _). congruence.
  - rewrite (scan_file_rejected dir_path name f no_lists data Hc)
      by (intros ? ?; congruence).
    unfold rejection_text. rewrite Hv. split; auto.
    intros (data' & msg' & out' & Hc' & Hv'). congruence.
Qed.

(** X6. A scanned file that cannot be read or parsed, or whose document
    makes the validator raise, does not stop the scan: one error line
    names it, with the text of the exception (after the words
    [JSON解析错误 - ] for a JSONDecodeError), the file is listed as skipped,
    it gets no entry and it stays on disk as it was. *)
Theorem raised_exception_is_reported (directory : string) (entries : listing)
        (i : nat) (name : string) (f : file) (e : exn) :
  NoDup (map fst entries) ->
  nth_error entries i = Some (name, f) ->
  scanned name = true ->
  contents f = Raise e \/
  (exists data, contents f = Ok data /\ validate_workflow data name = Raise e) ->
  let run := scan_directory directory (Some entries) in
  In ("❌ " ++ name ++ ": "
      ++ match exn_cls e with
         | JSONDecodeError => "JSON解析错误 - " ++ exn_msg e
         | _ => exn_msg e
         end)
     (errors (snd run)) /\
  In name (skipped_files (snd run)) /\
  (forall x, In x (items (snd run)) -> entry_filename x <> Some (JStr name)) /\
  exists entries',
    fst run = Some entries' /\ nth_error entries' i = Some (name, f).
Proof.
  intros Hnd Hi Hs He. cbv zeta. rewrite scan_directory_spec. cbn [fst snd].
  assert (Hin : In (name, f) entries) by (eapply nth_error_In; eauto).
  destruct (file_delta_raised directory name f e Hs He) as [Hd Hnv].
  destruct (scan_delta_incl directory entries name f Hin) as [Herr Hskip].
  rewrite Hd in Herr, Hskip.
  split; [apply Herr; now left|]. split; [apply Hskip; now left|].
  split; [now apply (no_item_for_failed directory entries name f)|].
  exists (after directory entries). split; [reflexivity|].
  rewrite (nth_error_after directory entries i name f Hi).
  now rewrite (file_after_rejected directory name f Hnv).
Qed.

(** X7. The scan treats each file on its own: scanning a directory listed
    as [es1] followed by [es2] leaves the files and gives the entries, the
    errors and the skipped names of scanning [es1] followed by those of
    scanning [es2]. *)
Theorem scan_directory_is_per_file (directory : string) (es1 es2 : listing) :
  let r := scan_directory directory (Some (es1 ++ es2)%list) in
  let r1 := scan_directory directory (Some es1) in
  let r2 := scan_directory directory (Some es2) in
  fst r = match fst r1, fst r2 with
          | Some l1, Some l2 => Some (l1 ++ l2)%list
          | _, _ => None
          end /\
  items (snd r) = (items (snd r1) ++ items (snd r2))%list /\
  errors (snd r) = (errors (snd r1) ++ errors (snd r2))%list /\
  skipped_files (snd r) = (skipped_files (snd r1) ++ skipped_files (snd r2))%list.
Proof.
  cbv zeta. rewrite !scan_directory_spec. cbn [fst snd].
  rewrite after_app, scan_delta_app. repeat split.
Qed.

Lemma scan_delta_filter_scanned (dir_path : string) (entries : listing) :
  scan_delta dir_path (filter (fun e => scanned (fst e)) entries)
  = scan_delta dir_path entries.
Proof.
  induction entries as [|[n f] rest IH]; [reflexivity|].
  cbn [filter fst scan_delta].
  destruct (scanned n) eqn:Hs.
  - cbn [scan_delta]. now rewrite IH.
  - rewrite IH. unfold file_delta. rewrite visit_scanned, Hs. cbn [snd].
    now rewrite lists_app_nil_l.
Qed.

(** X8. Files whose name does not end in [.json], and [index.json], play
    no part in the scan: the three lists are those of the directory without
    them, and each such file is left as it was. *)
Theorem unscanned_files_are_ignored (directory : string) (entries : listing) :
  snd (scan_directory directory (Some entries))
  = snd (scan_directory directory
           (Some (filter (fun e => scanned (fst e)) entries))) /\
  forall i name f,
    nth_error entries i = Some (name, f) ->
    PyStr.endswith name ".json" = false \/ name = "index.json" ->
    exists entries',
      fst (scan_directory directory (Some entries)) = Some entries' /\
      nth_error entries' i = Some (name, f).
Proof.
  rewrite !scan_directory_spec. cbn [fst snd]. split.
  - now rewrite scan_delta_filter_scanned.
  - intros i name f Hi Hn. exists (after directory entries).
    split; [reflexivity|].
    rewrite (nth_error_after directory entries i name f Hi).
    assert (Hs : scanned name = false).
    { unfold scanned. destruct Hn as [->| ->]; reflexivity. }
    unfold file_after. now rewrite visit_scanned, Hs.
Qed.


Lemma validates_object (name : string) (f : file) :
  validates name f ->
  exists d m,
    contents f = Ok (JObj d) /\
    Dict.get "_meta" d = Some (JObj m) /\
    (forall field, In field required_meta_fields -> Dict.mem field m = true) /\
    Dict.get "id" m = Some (JStr (normalize_id name)).
Proof.
  intros (data & msg & out & Hc & Hv).
  destruct (proj1 (validate_workflow_valid_iff data name))
    as (d & m & -> & H); [now exists msg, out|].
  now exists d, m.
Qed.

Lemma item_listed (dir_path : string) (entries : listing) (name : string)
      (f : file) (d m : dict) :
  In (name, f) entries -> scanned name = true -> validates name f ->
  contents f = Ok (JObj d) -> Dict.get "_meta" d = Some (JObj m) ->
  In (item_of m dir_path name) (items (scan_delta dir_path entries)).
Proof.
  intros Hin Hs Hv Hc Hm. apply scan_delta_items_iff.
  destruct (validates_object name f Hv) as (d' & m' & Hc' & Hm' & _ & Hid).
  rewrite Hc in Hc'. injection Hc' as <-. rewrite Hm in Hm'. injection Hm' as <-.
  exists name, f, d, m. repeat split; auto.
Qed.

(** X10. A file whose document is accepted but which cannot be opened for
    writing gets an error line, is listed as skipped and stays on disk as
    it was; and when the catalog write succeeded the file is listed in the
    catalog all the same, since its entry is appended before the write,
    and the run ends with status 1. *)
Theorem unwritable_file_is_listed_and_reported (directory now : string)
        (entries : listing) (i : nat) (name : string) (f : file) (e : exn) :
  nth_error entries i = Some (name, f) ->
  scanned name = true ->
  validates name f ->
  write_error f = Some e ->
  completed (snd (generate_index directory "index.json" now (Some entries))) = true ->
  let acc := snd (scan_directory directory (Some entries)) in
  let run := generate_index directory "index.json" now (Some entries) in
  In ("❌ " ++ name ++ ": "
      ++ match exn_cls e with
         | JSONDecodeError => "JSON解析错误 - " ++ exn_msg e
         | _ => exn_msg e
         end)
     (errors acc) /\
  In name (skipped_files acc) /\
  snd run = SysExit 1 /\
  exists entries' ws x,
    fst run = Some entries' /\
    nth_error entries' i = Some (name, f) /\
    catalog_workflows (Some entries') = Some ws /\
    In x ws /\ entry_filename x = Some (JStr name).
Proof.
  intros Hi Hs Hv Hw Hcw. cbv zeta. rewrite scan_directory_spec. cbn [snd].
  assert (Hin : In (name, f) entries) by (eapply nth_error_In; eauto).
  destruct (file_cases directory name f)
    as [Hs' ? ?|text ? Hnv ? ?|d m ? ? ? ? ? Hw' ? ? ?|d m e' ? ? Hc Hm ? Hw' Ha Hd
        |d m e' ? ? ? ? ? Hw' ? ? ?];
    try congruence; try contradiction.
  rewrite Hw in Hw'. injection Hw' as <-.
  destruct (scan_delta_incl directory entries name f Hin) as [Herr Hskip].
  rewrite Hd in Herr, Hskip.
  assert (He : In ("❌ " ++ name ++ ": " ++ handler_message e)
                  (errors (scan_delta directory entries)))
    by (apply Herr; now left).
  split; [exact He|]. split; [apply Hskip; now left|].
  destruct (generate_index_writes directory now entries Hcw)
    as (sorted & entries' & Hsort & Hw' & ->).
  cbn [fst snd]. split.
  - destruct (errors (scan_delta directory entries)); [contradiction|reflexivity].
  - exists entries', sorted, (item_of m directory name).
    split; [reflexivity|]. split; [|split; [|split]].
    + rewrite (write_file_nth _ _ _ _ i name (file_after directory name f) Hw');
        [now rewrite Ha| |now apply scanned_not_index].
      now apply nth_error_after.
    + exact (catalog_workflows_written _ _ _ _ Hw').
    + apply (Permutation_in _ (Permutation_sym (sort_items_perm _ _ Hsort))).
      now apply (item_listed directory entries name f d m).
    + apply item_of_filename.
Qed.

(** X11. The catalog entry of an accepted file: its [id] is
    [normalize_id] of the filename, the six required fields are those of
    [_meta] (their fallbacks are never used), [homepage], [tags] and
    [updated_at] are those of [_meta] or the empty string, the empty list
    and the empty string, [filename] is the name of the file,
    [download_url] the fixed base followed by that name and [local_path]
    the path of the file; the keys come in this order. *)
Theorem entry_of_accepted_file (directory : string) (entries : listing)
        (name : string) (f : file) (doc m : dict) :
  In (name, f) entries ->
  scanned name = true ->
  contents f = Ok (JObj doc) ->
  Dict.get "_meta" doc = Some (JObj m) ->
  validate_workflow (JObj doc) name = Ok (true, None, Some (JObj doc)) ->
  exists kvs,
    In (JObj kvs) (items (snd (scan_directory directory (Some entries)))) /\
    Dict.get "id" kvs = Some (JStr (normalize_id name)) /\
    (forall field,
        In field required_meta_fields -> Dict.get field kvs = Dict.get field m) /\
    Dict.get "homepage" kvs
    = Some (match Dict.get "homepage" m with Some v => v | None => JStr "" end) /\
    Dict.get "tags" kvs
    = Some (match Dict.get "tags" m with Some v => v | None => JArr [] end) /\
    Dict.get "updated_at" kvs
    = Some (match Dict.get "updated_at" m with Some v => v | None => JStr "" end) /\
    Dict.get "filename" kvs = Some (JStr name) /\
    Dict.get "download_url" kvs
    = Some (JStr ("https://raw.githubusercontent.com/ChaoMixian/vFlow-Repos/main/workflows/"
                  ++ name)) /\
    Dict.get "local_path" kvs = Some (JStr (child_path directory name)) /\
    Dict.keys kvs
    = ["id"; "name"; "description"; "author"; "version"; "vFlowLevel";
       "homepage"; "tags"; "updated_at"; "filename"; "download_url";
       "local_path"].
Proof.
  intros Hin Hs Hc Hm Hv. rewrite scan_directory_spec. cbn [snd].
  assert (Hval : validates name f) by (now exists (JObj doc), None, (Some (JObj doc))).
  destruct (validates_object name f Hval) as (d' & m' & Hc' & Hm' & Hall & Hid).
  rewrite Hc in Hc'. injection Hc' as <-. rewrite Hm in Hm'. injection Hm' as <-.
  pose proof (item_listed directory entries name f doc m Hin Hs Hval Hc Hm) as Hitem.
  unfold item_of in Hitem. eexists. split; [exact Hitem|].
  split; [|split; [|repeat split]].
  - unfold get_or. rewrite Hid. reflexivity.
  - intros field Hf. pose proof (Hall field Hf) as Hmem. unfold Dict.mem in Hmem.
    unfold required_meta_fields in Hf.
    destruct Hf as [<-|[<-|[<-|[<-|[<-|[<-|[]]]]]]]; unfold get_or;
      match goal with
      | |- _ = Dict.get ?k m => destruct (Dict.get k m); [reflexivity|discriminate]
      end.
Qed.

Lemma scan_delta_items_count (dir_path : string) (entries : listing) :
  List.length (items (scan_delta dir_path entries))
  = List.length
      (filter (fun e => scanned (fst e) && accepts (fst e) (snd e)) entries).
Proof.
  induction entries as [|[n f] rest IH]; [reflexivity|].
  cbn [scan_delta lists_app items filter fst snd].
  rewrite length_app, IH.
  destruct (file_cases dir_path n f)
    as [Hs ? Hd|text Hs Hnv ? Hd|d m Hs Hv ? ? ? ? ? ? Hd|d m e Hs Hv ? ? ? ? ? Hd
        |d m e Hs Hv ? ? ? ? ? ? Hd];
    rewrite Hd, Hs; cbn [andb items no_lists record_error append_item
                              List.app List.length]; try reflexivity.
  - destruct (accepts n f) eqn:E; [|reflexivity].
    apply accepts_iff in E. contradiction.
  - apply accepts_iff in Hv. now rewrite Hv.
  - apply accepts_iff in Hv. now rewrite Hv.
  - apply accepts_iff in Hv. now rewrite Hv.
Qed.

(** X12. A run whose catalog write succeeded has written the catalog
    whether or not files failed: the document holds the version [1.0], the
    time of the run, the entries and their number, and that number is the
    number of scanned files whose document is accepted. *)
Theorem catalog_is_written (directory now : string) (entries : listing) :
  completed (snd (generate_index directory "index.json" now (Some entries))) = true ->
  exists entries' ws,
    fst (generate_index directory "index.json" now (Some entries)) = Some entries'
    /\ catalog_file (Some entries')
       = Some (mkFile
                 (Ok (JObj [("version", JStr "1.0");
                            ("last_updated", JStr now);
                            ("total_count", JInt (Z.of_nat (List.length ws)));
                            ("workflows", JArr ws)]))
                 None)
    /\ List.length ws
       = List.length
           (filter (fun e => scanned (fst e) && accepts (fst e) (snd e)) entries).
Proof.
  intros Hcw.
  destruct (generate_index_writes directory now entries Hcw)
    as (sorted & entries' & Hsort & Hw & ->).
  exists entries', sorted. cbn [fst]. split; [reflexivity|]. split.
  - exact (catalog_file_written _ _ _ Hw).
  - rewrite <- (scan_delta_items_count directory entries).
    apply Permutation_length, (sort_items_perm _ _ Hsort).
Qed.


Lemma in_error_skipped (dir_path : string) (entries : listing)
      (name : string) (f : file) :
  In (name, f) entries -> scanned name = true -> in_error name f ->
  In name (skipped_files (scan_delta dir_path entries)).
Proof.
  intros Hin Hs He.
  apply (proj2 (scan_delta_incl dir_path entries name f Hin)).
  destruct (file_cases dir_path name f)
    as [Hs' ? ?|text ? ? ? Hd|d m ? Hv Hc ? ? Hw Hdump ? ?|d m e ? ? ? ? ? ? ? Hd
        |d m e ? ? ? ? ? ? ? ? Hd];
    try congruence.
  - rewrite Hd. now left.
  - destruct He as [He|[He|He]]; try contradiction.
    apply cut_short_iff in He. destruct He as (_ & _ & d' & e & Hc' & Hd').
    congruence.
  - rewrite Hd. now left.
  - rewrite Hd. now left.
Qed.

Lemma file_delta_names (dir_path name : string) (f : file) :
  (skipped_files (file_delta dir_path name f) = []
   \/ skipped_files (file_delta dir_path name f) = [name]) /\
  (filenames (items (file_delta dir_path name f)) = []
   \/ filenames (items (file_delta dir_path name f)) = [Some (JStr name)]).
Proof.
  destruct (file_cases dir_path name f)
    as [? ? ->|text ? ? ? ->|d m ? ? ? ? ? ? ? ? ->|d m e ? ? ? ? ? ? ? ->
        |d m e ? ? ? ? ? ? ? ? ->];
    split; auto.
Qed.

Lemma scan_delta_names_in (dir_path : string) (entries : listing) (name : string) :
  In name (skipped_files (scan_delta dir_path entries)) \/
  In (Some (JStr name)) (filenames (items (scan_delta dir_path entries))) ->
  In name (map fst entries).
Proof.
  intros [H|H].
  - destruct (scan_delta_skipped_in_error dir_path entries name H)
      as (f & Hin & _).
    apply (in_map fst) in Hin. exact Hin.
  - unfold filenames in H. apply in_map_iff in H. destruct H as (x & Hf & Hx).
    apply scan_delta_items_iff in Hx.
    destruct Hx as (n & f & d & m & Hin & _ & _ & _ & _ & _ & ->).
    rewrite item_of_filename in Hf. injection Hf as ->.
    apply (in_map fst) in Hin. exact Hin.
Qed.

(** X14. Every scanned file is accounted for, and no other: a name is
    among the skipped files exactly when a scanned file of that name
    produced an error (it is rejected or unreadable, does not open for
    writing, or the dump of its cleaned document raised), and an entry
    carries a filename exactly when a
    scanned file of that name holds an accepted document.  With distinct
    file names no name is skipped twice and no two entries carry the same
    filename. *)
Theorem scanned_files_are_accounted_for (directory : string) (entries : listing) :
  let acc := snd (scan_directory directory (Some entries)) in
  (forall name,
      In name (skipped_files acc) <->
      exists f, In (name, f) entries /\ scanned name = true /\ in_error name f) /\
  (forall name,
      In (Some (JStr name)) (filenames (items acc)) <->
      exists f, In (name, f) entries /\ scanned name = true /\ validates name f) /\
  (NoDup (map fst entries) ->
   NoDup (skipped_files acc) /\ NoDup (filenames (items acc))).
Proof.
  cbv zeta. rewrite scan_directory_spec. cbn [snd]. split; [|split].
  - intros name. split.
    + exact (scan_delta_skipped_in_error directory entries name).
    + intros (f & Hin & Hs & He). now apply (in_error_skipped directory entries name f).
  - intros name. unfold filenames. rewrite in_map_iff. split.
    + intros (x & Hf & Hx). apply scan_delta_items_iff in Hx.
      destruct Hx as (n & f & d & m & Hin & Hs & Hv & _ & _ & _ & ->).
      rewrite item_of_filename in Hf. injection Hf as ->. now exists f.
    + intros (f & Hin & Hs & Hv).
      destruct (validates_object name f Hv) as (d & m & Hc & Hm & _).
      exists (item_of m directory name). split; [apply item_of_filename|].
      now apply (item_listed directory entries name f d m).
  - induction entries as [|[n f] rest IH]; cbn [map fst scan_delta].
    + intros _. split; constructor.
    + intros Hnd. inversion Hnd as [|? ? Hn Hnd']; subst.
      destruct (IH Hnd') as [IH1 IH2].
      cbn [lists_app skipped_files items]. unfold filenames in *.
      rewrite map_app.
      destruct (file_delta_names directory n f) as [[->| ->] [Hi|Hi]];
        unfold filenames in Hi; rewrite Hi; cbn [List.app]; split; auto;
        constructor; auto; intros Hx; apply Hn;
        apply (scan_delta_names_in directory rest n); auto.
Qed.

(** X15. A run over a directory that exists, whose catalog write
    succeeded, ended by returning or through [sys.exit(1)]: the exit status
    is 0 when the scan recorded no error and 1 otherwise, and an error is
    recorded exactly when a scanned file is rejected or unreadable, does
    not open for writing, or is cut short by a dump that raised. *)
Theorem exit_status_reflects_errors (directory now : string) (entries : listing) :
  completed (snd (generate_index directory "index.json" now (Some entries))) = true ->
  let acc := snd (scan_directory directory (Some entries)) in
  let run := generate_index directory "index.json" now (Some entries) in
  (errors acc = [] /\ snd run = Returned /\ exit_status (snd run) = 0%Z
   \/ errors acc <> [] /\ snd run = SysExit 1 /\ exit_status (snd run) = 1%Z) /\
  (errors acc <> [] <->
   exists name f,
     In (name, f) entries /\ scanned name = true /\ in_error name f).
Proof.
  intros Hcw. cbv zeta. rewrite scan_directory_spec. cbn [snd].
  destruct (generate_index_writes directory now entries Hcw)
    as (sorted & entries' & Hsort & Hw & ->).
  cbn [snd]. split; [|apply scan_delta_errors].
  destruct (errors (scan_delta directory entries)).
  - left. repeat split.
  - right. repeat split. discriminate.
Qed.

Lemma dict_mem_set_other (k k' : string) (v : json) (d : dict) :
  k' <> k -> Dict.mem k' (Dict.set k v d) = Dict.mem k' d.
Proof. intros H. unfold Dict.mem. now rewrite dict_get_set_other. Qed.

(** X16. [clean_workflow_for_repo] keeps the keys of the document in
    their order and puts the flags the document lacked after them, in the
    order isEnabled, isFavorite, wasEnabledBeforePermissionsLost. *)
Theorem clean_workflow_for_repo_key_order (d : dict) :
  exists d',
    clean_workflow_for_repo (JObj d) = Ok (JObj d') /\
    Dict.keys d'
    = (Dict.keys d ++ filter (fun k => negb (Dict.mem k d)) runtime_flags)%list.
Proof.
  exists (cleaned_dict d). split; [reflexivity|].
  unfold cleaned_dict. rewrite !dict_set_keys.
  rewrite !dict_mem_set_other by discriminate.
  unfold runtime_flags. cbn [filter].
  destruct (Dict.mem "isEnabled" d), (Dict.mem "isFavorite" d),
    (Dict.mem "wasEnabledBeforePermissionsLost" d);
    cbn [negb]; rewrite <- ?app_assoc; cbn [List.app];
    rewrite ?app_nil_r; reflexivity.
Qed.

(** X17. After a run the file at each place holds an accepted document
    exactly when it did before and its write-back was not cut short: a
    scanned file that the run left cut short no longer validates, and no
    other file changes its verdict. *)
Theorem run_keeps_validity_unless_cut_short (directory now : string)
        (entries : listing) (i : nat) (name : string) (f : file) :
  nth_error entries i = Some (name, f) ->
  name <> "index.json" ->
  exists entries' f',
    fst (generate_index directory "index.json" now (Some entries)) = Some entries'
    /\ nth_error entries' i = Some (name, f')
    /\ (validates name f' <->
        validates name f /\ (scanned name = true -> cut_short name f = false)).
Proof.
  intros Hi Hne.
  destruct (generate_index_keeps_position directory now entries i name f Hi Hne)
    as (entries' & Hrun & Hnth).
  exists entries', (file_after directory name f).
  split; [exact Hrun|]. split; [exact Hnth|].
  assert (Hnot : forall d, contents f = Ok (JObj d) ->
                 write_error f <> None \/ dump_error name (JObj (cleaned_dict d)) = None ->
                 cut_short name f = false).
  { intros d Hc Hor. destruct (cut_short name f) eqn:E; [|reflexivity].
    apply cut_short_iff in E. destruct E as (_ & Hw & d' & e & Hc' & Hd').
    destruct Hor as [Hor|Hor]; [contradiction|congruence]. }
  destruct (file_cases directory name f)
    as [Hs Ha ?|text ? Hnv Ha ?|d m ? Hv Hc ? ? Hw Hd Ha ?|d m e ? Hv Hc ? ? Hw Ha ?
        |d m e Hs Hv Hc ? ? Hw Hd Ha ?];
    rewrite Ha.
  - split; [|tauto]. intros Hv. split; [exact Hv|congruence].
  - split; [contradiction|tauto].
  - split.
    + intros _. split; [exact Hv|]. intros _. apply (Hnot d Hc). now right.
    + intros _. now apply (validates_cleaned name f d None).
  - split; [|tauto]. intros _. split; [exact Hv|]. intros _.
    apply (Hnot d Hc). left. congruence.
  - split.
    + intros (data & msg & out & Hc' & _). discriminate.
    + intros [_ Hcut]. specialize (Hcut Hs).
      assert (Ht : cut_short name f = true).
      { apply cut_short_iff. split; [exact Hv|]. split; [exact Hw|].
        now exists d, e. }
      congruence.
Qed.


(** X19. A scanned file whose document is accepted and which opens for
    writing, but for which the dump of the cleaned document raises, is
    left cut short, reading it raises from then on; its entry, appended
    before the write, is among the collected entries; and the handler
    records the error line of the exception and lists the file as
    skipped. *)
Theorem cut_short_file_is_listed_and_reported (directory : string)
        (entries : listing) (i : nat) (name : string) (f : file)
        (doc : dict) (cleaned : json) (e : exn) :
  nth_error entries i = Some (name, f) ->
  scanned name = true ->
  contents f = Ok (JObj doc) ->
  validate_workflow (JObj doc) name = Ok (true, None, Some (JObj doc)) ->
  write_error f = None ->
  clean_workflow_for_repo (JObj doc) = Ok cleaned ->
  dump_error name cleaned = Some e ->
  let run := scan_directory directory (Some entries) in
  In ("❌ " ++ name ++ ": "
      ++ match exn_cls e with
         | JSONDecodeError => "JSON解析错误 - " ++ exn_msg e
         | _ => exn_msg e
         end)
     (errors (snd run)) /\
  In name (skipped_files (snd run)) /\
  (exists x, In x (items (snd run)) /\ entry_filename x = Some (JStr name)) /\
  exists entries',
    fst run = Some entries' /\
    nth_error entries' i = Some (name, mkFile (Raise (dump_residue name cleaned)) None).
Proof.
  intros Hi Hs Hc Hv Hw Hclean Hd. cbv zeta.
  rewrite scan_directory_spec. cbn [fst snd].
  rewrite clean_workflow_for_repo_object in Hclean. injection Hclean as <-.
  assert (Hin : In (name, f) entries) by (eapply nth_error_In; eauto).
  assert (Hval : validates name f)
    by (now exists (JObj doc), None, (Some (JObj doc))).
  destruct (scan_delta_incl directory entries name f Hin) as [Herr Hskip].
  destruct (file_cases directory name f)
    as [Hs' ? ?|text ? Hnv ? ?|d m ? ? Hc' ? ? ? Hd' ? ?|d m e' ? ? ? ? ? Hw' ? ?
        |d m e' ? ? Hc' Hm ? ? Hd' Ha Hdelta];
    try congruence; try contradiction.
  rewrite Hc in Hc'. injection Hc' as <-.
  rewrite Hd in Hd'. injection Hd' as <-.
  rewrite Hdelta in Herr, Hskip.
  split; [apply Herr; now left|]. split; [apply Hskip; now left|]. split.
  - exists (item_of m directory name). split; [|apply item_of_filename].
    now apply (item_listed directory entries name f doc m).
  - exists (after directory entries). split; [reflexivity|].
    now rewrite (nth_error_after directory entries i name f Hi), Ha.
Qed.

End Program.

(** ** The second run on a sample directory *)

(** C5 (the code departs from it). A valid workflow file whose flags are
    false already, but whose document holds a lone surrogate, is cut short
    by the first run: the dump of the cleaned document raises once the
    file has been opened.  The first run lists the file in the catalog all
    the same and ends with status 1.  The second run leaves the files as
    it finds them, but it cannot parse that file any more, so its catalog
    has lost the entry: the two catalogs differ in more than
    [last_updated]. *)
Theorem second_run_drops_cut_short_file :
  let fs := Some [("s.json", sample_surrogate_file "s")] in
  let run1 := generate_index sample_repr sample_dump_error sample_dump_residue
                "workflows" "index.json" sample_now fs in
  let run2 := generate_index sample_repr sample_dump_error sample_dump_residue
                "workflows" "index.json" sample_later (fst run1) in
  validate_workflow sample_repr (JObj (sample_surrogate_doc "s")) "s.json"
  = Ok (true, None, Some (JObj (sample_surrogate_doc "s"))) /\
  clean_workflow_for_repo (JObj (sample_surrogate_doc "s"))
  = Ok (JObj (sample_surrogate_doc "s")) /\
  workflow_files (fst run1)
  = Some [("s.json",
           mkFile (Raise (mkExn JSONDecodeError
                            "Expecting value: line 13 column 11 (char 246)"))
                  None)] /\
  (exists x,
      catalog_workflows (fst run1) = Some [x] /\
      entry_filename x = Some (JStr "s.json")) /\
  snd run1 = SysExit 1 /\
  workflow_files (fst run2) = workflow_files (fst run1) /\
  catalog_workflows (fst run2) = Some [] /\
  snd run2 = SysExit 1 /\
  option_map without_timestamp (catalog_file (fst run2))
  <> option_map without_timestamp (catalog_file (fst run1)).
Proof.
  cbv zeta. split; [reflexivity|]. split; [reflexivity|]. split; [reflexivity|].
  split; [eexists; split; reflexivity|].
  split; [reflexivity|]. split; [reflexivity|]. split; [reflexivity|].
  split; [reflexivity|].
  vm_compute. discriminate.
Qed.

(** ** The properties at sample inputs *)

Lemma clean_workflow_for_repo_forces_flags_witness :
  validate_workflow sample_repr (JObj (sample_doc "a")) "a.json"
  = Ok (true, None, Some (JObj (sample_doc "a"))) /\
  exists entries' cleaned,
    clean_workflow_for_repo (JObj (sample_doc "a")) = Ok cleaned /\
    fst (generate_index sample_repr sample_dump_error sample_dump_residue
           "workflows" "index.json" sample_now
           (Some [("a.json", sample_file "a")])) = Some entries' /\
    nth_error entries' 0 = Some ("a.json", mkFile (Ok cleaned) None).
Proof.
  split; [reflexivity|].
  destruct (proj2 (clean_workflow_for_repo_forces_flags
                     sample_repr sample_dump_error sample_dump_residue
                     (sample_doc "a"))
              "workflows" sample_now [("a.json", sample_file "a")] 0 "a.json"
              (sample_file "a") eq_refl eq_refl eq_refl eq_refl)
    as (entries' & cleaned & Hc & Hrun & Hok & _ & _).
  exists entries', cleaned. split; [exact Hc|]. split; [exact Hrun|].
  apply Hok; [reflexivity|].
  injection Hc as <-. reflexivity.
Defined.

Lemma catalog_sorted_by_id_witness :
  completed
    (snd (generate_index sample_repr sample_dump_error sample_dump_residue
            "workflows" "index.json" sample_now
            (Some [("b.json", sample_file "b"); ("a.json", sample_file "a")])))
  = true /\
  exists ws l1 x1 l2 x2 l3,
    written_entries sample_repr sample_dump_error sample_dump_residue
      "workflows" sample_now
      [("b.json", sample_file "b"); ("a.json", sample_file "a")] = Some ws /\
    StronglySorted id_le ws /\
    ws = (l1 ++ x1 :: l2 ++ x2 :: l3)%list /\
    entry_filename x1 = Some (JStr "a.json") /\
    entry_filename x2 = Some (JStr "b.json").
Proof.
  split; [reflexivity|].
  destruct (catalog_sorted_by_id sample_repr sample_dump_error sample_dump_residue
              "workflows" sample_now
              [("b.json", sample_file "b"); ("a.json", sample_file "a")] eq_refl)
    as (ws & Hws & _ & Hsorted & _ & Hord).
  destruct (Hord "a.json" "b.json" (sample_file "a") (sample_file "b"))
    as (l1 & x1 & l2 & x2 & l3 & Heq & Hf1 & _ & Hf2 & _);
    try reflexivity.
  - right. left. reflexivity.
  - left. reflexivity.
  - exists (JObj (sample_doc "a")), None, (Some (JObj (sample_doc "a"))).
    split; reflexivity.
  - exists (JObj (sample_doc "b")), None, (Some (JObj (sample_doc "b"))).
    split; reflexivity.
  - exists ws, l1, x1, l2, x2, l3. repeat split; assumption.
Defined.

Lemma rejected_file_left_alone_witness :
  validate_workflow sample_repr (JObj [("name", JStr "no meta")]) "bad.json"
  = Ok (false, Some "缺少 '_meta' 字段", None) /\
  In "❌ bad.json: 缺少 '_meta' 字段"
     (errors (snd (scan_directory sample_repr sample_dump_error sample_dump_residue
                     "workflows"
                     (Some [("good.json", sample_file "good");
                            ("bad.json", sample_bad_file)])))) /\
  exists entries',
    fst (generate_index sample_repr sample_dump_error sample_dump_residue
           "workflows" "index.json" sample_now
           (Some [("good.json", sample_file "good"); ("bad.json", sample_bad_file)]))
    = Some entries' /\
    nth_error entries' 1 = Some ("bad.json", sample_bad_file).
Proof.
  split; [reflexivity|].
  assert (Hnd : NoDup (map fst [("good.json", sample_file "good");
                                ("bad.json", sample_bad_file)])).
  { repeat constructor; simpl; intuition discriminate. }
  destruct (rejected_file_left_alone sample_repr sample_dump_error sample_dump_residue
              "workflows" sample_now
              [("good.json", sample_file "good"); ("bad.json", sample_bad_file)]
              1 "bad.json" sample_bad_file (JObj [("name", JStr "no meta")])
              (Some "缺少 '_meta' 字段") None Hnd eq_refl eq_refl eq_refl eq_refl)
    as (_ & _ & Herr & _ & Hdisk).
  split; [exact Herr|exact Hdisk].
Defined.

Lemma validate_workflow_depends_on_meta_only_witness :
  Dict.get "_meta" (sample_doc "a")
  = Dict.get "_meta" [("extra", JInt 7); ("_meta", full_meta "a")] /\
  verdict (validate_workflow sample_repr (JObj (sample_doc "a")) "b.json")
  = verdict (validate_workflow sample_repr
               (JObj [("extra", JInt 7); ("_meta", full_meta "a")]) "b.json").
Proof.
  split; [reflexivity|].
  apply (validate_workflow_depends_on_meta_only sample_repr); reflexivity.
Defined.

Lemma normalize_id_of_stem_witness :
  PyStr.contains ".json" "hello" = false /\
  normalize_id ("hello" ++ ".json") = "hello".
Proof.
  split; [reflexivity|]. apply (normalize_id_of_stem "hello"). reflexivity.
Defined.

Lemma validate_workflow_lists_missing_fields_witness :
  Dict.get "_meta" sample_partial_doc
  = Some (JObj [("id", JStr "x"); ("author", JStr "me")]) /\
  validate_workflow sample_repr (JObj sample_partial_doc) "x.json"
  = Ok (false, Some "_meta缺少必需字段: name, description, version, vFlowLevel", None).
Proof.
  split; [reflexivity|].
  apply (validate_workflow_lists_missing_fields sample_repr sample_partial_doc
           [("id", JStr "x"); ("author", JStr "me")] "x.json");
    [reflexivity|discriminate].
Defined.

Lemma validate_workflow_reports_id_mismatch_witness :
  Dict.get "id" [("id", JStr "foo"); ("name", JStr "Demo"); ("description", JStr "");
                 ("author", JStr "someone"); ("version", JStr "1.0.0");
                 ("vFlowLevel", JInt 1)] = Some (JStr "foo") /\
  validate_workflow sample_repr (JObj (sample_doc "foo")) "bar.json"
  = Ok (false, Some "_meta.id 不匹配: 文件名='bar', _meta.id='foo'", None).
Proof.
  split; [reflexivity|].
  apply (validate_workflow_reports_id_mismatch sample_repr (sample_doc "foo")
           [("id", JStr "foo"); ("name", JStr "Demo"); ("description", JStr "");
            ("author", JStr "someone"); ("version", JStr "1.0.0");
            ("vFlowLevel", JInt 1)] "bar.json" (JStr "foo")).
  - reflexivity.
  - intros field [<-|[<-|[<-|[<-|[<-|[<-|[]]]]]]]; reflexivity.
  - reflexivity.
  - discriminate.
Defined.

Lemma validate_workflow_raises_on_scalar_witness :
  scalar JNull = true /\
  exists e,
    validate_workflow sample_repr (JObj [("_meta", JNull)]) "x.json" = Raise e /\
    exn_cls e = TypeError.
Proof.
  split; [reflexivity|].
  apply (validate_workflow_raises_on_scalar sample_repr).
  right. exists [("_meta", JNull)], JNull. repeat split.
Defined.

Lemma sample_listing_names_distinct : NoDup (map fst sample_listing).
Proof. repeat constructor; simpl; intuition discriminate. Defined.

Lemma raised_exception_is_reported_witness :
  nth_error sample_listing 2 = Some ("broken.json", sample_broken_file) /\
  In "❌ broken.json: JSON解析错误 - Expecting value: line 1 column 1 (char 0)"
     (errors (snd (scan_directory sample_repr sample_dump_error sample_dump_residue
                     "workflows" (Some sample_listing)))) /\
  In "broken.json"
     (skipped_files (snd (scan_directory sample_repr sample_dump_error
                            sample_dump_residue "workflows" (Some sample_listing)))).
Proof.
  split; [reflexivity|].
  destruct (raised_exception_is_reported sample_repr sample_dump_error
              sample_dump_residue "workflows" sample_listing 2
              "broken.json" sample_broken_file
              (mkExn JSONDecodeError "Expecting value: line 1 column 1 (char 0)")
              sample_listing_names_distinct eq_refl eq_refl (or_introl eq_refl))
    as (Herr & Hskip & _).
  split; [exact Herr|exact Hskip].
Defined.

Lemma unscanned_files_are_ignored_witness :
  PyStr.endswith "notes.txt" ".json" = false /\
  exists entries',
    fst (scan_directory sample_repr sample_dump_error sample_dump_residue
           "workflows" (Some sample_listing)) = Some entries' /\
    nth_error entries' 3
    = Some ("notes.txt", mkFile (Raise (mkExn OtherException "not JSON")) None) /\
    nth_error entries' 4 = Some ("index.json", mkFile (Ok JNull) None).
Proof.
  split; [reflexivity|].
  destruct (unscanned_files_are_ignored sample_repr sample_dump_error
              sample_dump_residue "workflows" sample_listing)
    as [_ H].
  destruct (H 3 "notes.txt" (mkFile (Raise (mkExn OtherException "not JSON")) None)
              eq_refl (or_introl eq_refl)) as (entries' & H1 & H2).
  destruct (H 4 "index.json" (mkFile (Ok JNull) None) eq_refl (or_intror eq_refl))
    as (entries'' & H3 & H4).
  exists entries'. split; [exact H1|]. split; [exact H2|].
  rewrite H1 in H3. injection H3 as <-. exact H4.
Defined.


Lemma unwritable_file_is_listed_and_reported_witness :
  write_error (sample_read_only_file "a")
  = Some (mkExn OSError "[Errno 13] Permission denied") /\
  completed
    (snd (generate_index sample_repr sample_dump_error sample_dump_residue
            "workflows" "index.json" sample_now
            (Some [("a.json", sample_read_only_file "a")]))) = true /\
  In "❌ a.json: [Errno 13] Permission denied"
     (errors (snd (scan_directory sample_repr sample_dump_error sample_dump_residue
                     "workflows" (Some [("a.json", sample_read_only_file "a")])))) /\
  snd (generate_index sample_repr sample_dump_error sample_dump_residue
         "workflows" "index.json" sample_now
         (Some [("a.json", sample_read_only_file "a")])) = SysExit 1.
Proof.
  split; [reflexivity|]. split; [reflexivity|].
  destruct (unwritable_file_is_listed_and_reported sample_repr sample_dump_error
              sample_dump_residue "workflows" sample_now
              [("a.json", sample_read_only_file "a")] 0 "a.json"
              (sample_read_only_file "a")
              (mkExn OSError "[Errno 13] Permission denied") eq_refl eq_refl)
    as (Herr & _ & Hexit & _); try reflexivity.
  - exists (JObj (sample_doc "a")), None, (Some (JObj (sample_doc "a"))).
    split; reflexivity.
  - split; [exact Herr|exact Hexit].
Defined.

Lemma entry_of_accepted_file_witness :
  validate_workflow sample_repr (JObj (sample_doc "good")) "good.json"
  = Ok (true, None, Some (JObj (sample_doc "good"))) /\
  exists kvs,
    In (JObj kvs)
       (items (snd (scan_directory sample_repr sample_dump_error sample_dump_residue
                      "workflows" (Some sample_listing)))) /\
    Dict.get "id" kvs = Some (JStr "good") /\
    Dict.get "local_path" kvs = Some (JStr "workflows/good.json").
Proof.
  split; [reflexivity|].
  destruct (entry_of_accepted_file sample_repr sample_dump_error sample_dump_residue
              "workflows" sample_listing "good.json"
              (sample_file "good") (sample_doc "good")
              [("id", JStr "good"); ("name", JStr "Demo"); ("description", JStr "");
               ("author", JStr "someone"); ("version", JStr "1.0.0");
               ("vFlowLevel", JInt 1)])
    as (kvs & Hin & Hid & _ & _ & _ & _ & _ & _ & Hpath & _);
    try reflexivity.
  - left. reflexivity.
  - exists kvs. repeat split; assumption.
Defined.

Lemma catalog_is_written_witness :
  completed
    (snd (generate_index sample_repr sample_dump_error sample_dump_residue
            "workflows" "index.json" sample_now (Some sample_listing))) = true /\
  exists entries' ws,
    fst (generate_index sample_repr sample_dump_error sample_dump_residue
           "workflows" "index.json" sample_now (Some sample_listing))
    = Some entries' /\
    catalog_workflows (Some entries') = Some ws /\
    List.length ws = 1.
Proof.
  split; [reflexivity|].
  destruct (catalog_is_written sample_repr sample_dump_error sample_dump_residue
              "workflows" sample_now sample_listing eq_refl)
    as (entries' & ws & Hrun & Hcat & Hlen).
  exists entries', ws. split; [exact Hrun|]. split; [|exact Hlen].
  unfold catalog_workflows. now rewrite Hcat.
Defined.


Lemma scanned_files_are_accounted_for_witness :
  NoDup (skipped_files
           (snd (scan_directory sample_repr sample_dump_error sample_dump_residue
                   "workflows" (Some sample_listing)))) /\
  NoDup (filenames
           (items (snd (scan_directory sample_repr sample_dump_error
                          sample_dump_residue "workflows" (Some sample_listing))))).
Proof.
  exact (proj2 (proj2 (scanned_files_are_accounted_for sample_repr sample_dump_error
                         sample_dump_residue "workflows" sample_listing))
               sample_listing_names_distinct).
Defined.

Lemma exit_status_reflects_errors_witness :
  completed
    (snd (generate_index sample_repr sample_dump_error sample_dump_residue
            "workflows" "index.json" sample_now (Some sample_listing))) = true /\
  exit_status (snd (generate_index sample_repr sample_dump_error sample_dump_residue
                      "workflows" "index.json" sample_now
                      (Some sample_listing))) = 1%Z.
Proof.
  split; [reflexivity|].
  destruct (exit_status_reflects_errors sample_repr sample_dump_error
              sample_dump_residue "workflows" sample_now
              sample_listing eq_refl) as [[(Hnone & _)|(_ & _ & Hexit)] _].
  - discriminate Hnone.
  - exact Hexit.
Defined.

Lemma run_keeps_validity_unless_cut_short_witness :
  nth_error [("s.json", sample_surrogate_file "s")] 0
  = Some ("s.json", sample_surrogate_file "s") /\
  exists entries' f',
    fst (generate_index sample_repr sample_dump_error sample_dump_residue
           "workflows" "index.json" sample_now
           (Some [("s.json", sample_surrogate_file "s")])) = Some entries' /\
    nth_error entries' 0 = Some ("s.json", f') /\
    (validates sample_repr "s.json" f' <->
     validates sample_repr "s.json" (sample_surrogate_file "s") /\
     (scanned "s.json" = true ->
      cut_short sample_repr sample_dump_error "s.json" (sample_surrogate_file "s")
      = false)).
Proof.
  split; [reflexivity|].
  apply (run_keeps_validity_unless_cut_short sample_repr sample_dump_error
           sample_dump_residue "workflows" sample_now
           [("s.json", sample_surrogate_file "s")] 0 "s.json"
           (sample_surrogate_file "s")); [reflexivity|discriminate].
Defined.


Lemma cut_short_file_is_listed_and_reported_witness :
  sample_dump_error "s.json" (JObj (sample_surrogate_doc "s"))
  = Some (mkExn UnicodeEncodeError
            "'utf-8' codec can't encode character '\ud800' in position 1: surrogates not allowed") /\
  In "❌ s.json: 'utf-8' codec can't encode character '\ud800' in position 1: surrogates not allowed"
     (errors (snd (scan_directory sample_repr sample_dump_error sample_dump_residue
                     "workflows" (Some [("s.json", sample_surrogate_file "s")])))) /\
  exists entries',
    fst (scan_directory sample_repr sample_dump_error sample_dump_residue
           "workflows" (Some [("s.json", sample_surrogate_file "s")]))
    = Some entries' /\
    nth_error entries' 0
    = Some ("s.json",
            mkFile (Raise (mkExn JSONDecodeError
                             "Expecting value: line 13 column 11 (char 246)"))
                   None).
Proof.
  split; [reflexivity|].
  destruct (cut_short_file_is_listed_and_reported sample_repr sample_dump_error
              sample_dump_residue "workflows"
              [("s.json", sample_surrogate_file "s")] 0 "s.json"
              (sample_surrogate_file "s") (sample_surrogate_doc "s")
              (JObj (sample_surrogate_doc "s"))
              (mkExn UnicodeEncodeError
                 "'utf-8' codec can't encode character '\ud800' in position 1: surrogates not allowed")
              eq_refl eq_refl eq_refl eq_refl eq_refl eq_refl eq_refl)
    as (Herr & _ & _ & Hdisk).
  split; [exact Herr|exact Hdisk].
Defined.
